(** * The virtio-input device backend (devicemodel/hw/pci/virtio/virtio_input.c)

    A shallow embedding of the per-device data model, of the callbacks the
    file registers with the virtio framework, and of the attach routine
    [virtio_input_init] with its [fail:] label.  Integers of the C code are
    [Z]; pointers that the code tests against NULL are [option]; the libc,
    kernel and framework calls made by [virtio_input_init] are answered by a
    [host_env] record, and every acquisition or release of a resource is
    written to a log. *)

From Stdlib Require Import ZArith List String Ascii Bool Lia Permutation Sorted.
Import ListNotations.
Open Scope string_scope.
Open Scope Z_scope.

(** ** Constants *)

Definition VIRTIO_INPUT_EVENT_QUEUE : Z := 0.
Definition VIRTIO_INPUT_STATUS_QUEUE : Z := 1.
Definition VIRTIO_INPUT_MAXQ : Z := 2.
Definition VIRTIO_INPUT_RINGSZ : Z := 64.
Definition VIRTIO_INPUT_PACKET_SIZE : Z := 10.

(** enum virtio_input_config_select; the [select] register is a byte, so
    the enumerators are kept as the numbers the guest writes. *)
Definition VIRTIO_INPUT_CFG_UNSET : Z := 0x00.
Definition VIRTIO_INPUT_CFG_ID_NAME : Z := 0x01.
Definition VIRTIO_INPUT_CFG_ID_SERIAL : Z := 0x02.
Definition VIRTIO_INPUT_CFG_ID_DEVIDS : Z := 0x03.
Definition VIRTIO_INPUT_CFG_PROP_BITS : Z := 0x10.
Definition VIRTIO_INPUT_CFG_EV_BITS : Z := 0x11.
Definition VIRTIO_INPUT_CFG_ABS_INFO : Z := 0x12.

(** ** Data model *)

Record virtio_input_event : Type := {
  ev_type : Z;   (* uint16_t type  *)
  ev_code : Z;   (* uint16_t code  *)
  ev_value : Z   (* uint32_t value *)
}.

Record iovec : Type := {
  iov_base : Z;
  iov_len : Z
}.

(** struct virtio_input_config: three byte registers, five reserved bytes
    and the 128-byte union [u], kept as its bytes. *)
Record virtio_input_config : Type := {
  select : Z;
  subsel : Z;
  size : Z;
  reserved : list Z;
  u : list Z
}.

Record virtio_input_event_elem : Type := {
  event : virtio_input_event;
  iov : iovec;
  idx : Z
}.

(** The two notify callbacks a queue can point at. *)
Inductive vq_notify : Type :=
| NOTIFY_EVENT_VQ
| NOTIFY_STATUS_VQ.

(** Modelled from the spec: struct virtio_vq_info is declared in virtio.h,
    which lies outside the file embedded here.  [qsize] and [notify] are the
    two fields [virtio_input_init] assigns; [vq_avail] are the guest-posted
    descriptors not yet consumed and [vq_used] the descriptors written and
    marked used, after the descriptor primitives of the transport
    (pop_descriptor / mark_used). *)
Record virtio_vq_info : Type := {
  qsize : Z;
  notify : option vq_notify;
  vq_avail : list iovec;
  vq_used : list (iovec * virtio_input_event)
}.

(** Modelled from the spec: struct virtio_base is declared in virtio.h.
    [linked] records that virtio_linkup ran, [base_mtx] that the device
    mutex was handed to the framework, [intr_ready] that interrupt setup
    succeeded, and [guest_notifications] counts the notifications raised
    towards the guest (notify_guest). *)
Record virtio_base : Type := {
  linked : bool;
  base_mtx : bool;
  intr_ready : bool;
  guest_notifications : nat
}.

Record mevent : Type := { me_fd : Z }.

(** struct virtio_input, field by field.  [mtx] holds whether the mutex
    has been initialised. *)
Record virtio_input : Type := {
  base : virtio_base;
  queues : list virtio_vq_info;
  mtx : bool;
  mevp : option mevent;
  features : Z;
  cfg : virtio_input_config;
  evdev : option string;
  serial : option string;
  fd : Z;
  ready : bool;
  event_queue : option (list virtio_input_event_elem);
  event_qsize : Z;
  event_qindex : Z
}.

(** What calloc hands out: every byte zero, every pointer NULL. *)
Definition zero_event : virtio_input_event :=
  {| ev_type := 0; ev_code := 0; ev_value := 0 |}.

Definition zero_elem : virtio_input_event_elem :=
  {| event := zero_event; iov := {| iov_base := 0; iov_len := 0 |}; idx := 0 |}.

Definition zero_config : virtio_input_config :=
  {| select := 0; subsel := 0; size := 0;
     reserved := repeat 0 5; u := repeat 0 128 |}.

Definition zero_vq : virtio_vq_info :=
  {| qsize := 0; notify := None; vq_avail := []; vq_used := [] |}.

Definition zero_base : virtio_base :=
  {| linked := false; base_mtx := false; intr_ready := false;
     guest_notifications := 0%nat |}.

Definition zero_virtio_input : virtio_input :=
  {| base := zero_base;
     queues := repeat zero_vq (Z.to_nat VIRTIO_INPUT_MAXQ);
     mtx := false; mevp := None; features := 0; cfg := zero_config;
     evdev := None; serial := None; fd := 0; ready := false;
     event_queue := None; event_qsize := 0; event_qindex := 0 |}.

(** Field updates, one per assignment form of the source. *)
Definition set_base (b : virtio_base) (vi : virtio_input) : virtio_input :=
  {| base := b; queues := queues vi; mtx := mtx vi; mevp := mevp vi;
     features := features vi; cfg := cfg vi; evdev := evdev vi;
     serial := serial vi; fd := fd vi; ready := ready vi;
     event_queue := event_queue vi; event_qsize := event_qsize vi;
     event_qindex := event_qindex vi |}.

Definition set_queues (q : list virtio_vq_info) (vi : virtio_input) : virtio_input :=
  {| base := base vi; queues := q; mtx := mtx vi; mevp := mevp vi;
     features := features vi; cfg := cfg vi; evdev := evdev vi;
     serial := serial vi; fd := fd vi; ready := ready vi;
     event_queue := event_queue vi; event_qsize := event_qsize vi;
     event_qindex := event_qindex vi |}.

Definition set_mtx (m : bool) (vi : virtio_input) : virtio_input :=
  {| base := base vi; queues := queues vi; mtx := m; mevp := mevp vi;
     features := features vi; cfg := cfg vi; evdev := evdev vi;
     serial := serial vi; fd := fd vi; ready := ready vi;
     event_queue := event_queue vi; event_qsize := event_qsize vi;
     event_qindex := event_qindex vi |}.

Definition set_mevp (m : option mevent) (vi : virtio_input) : virtio_input :=
  {| base := base vi; queues := queues vi; mtx := mtx vi; mevp := m;
     features := features vi; cfg := cfg vi; evdev := evdev vi;
     serial := serial vi; fd := fd vi; ready := ready vi;
     event_queue := event_queue vi; event_qsize := event_qsize vi;
     event_qindex := event_qindex vi |}.

Definition set_evdev (s : option string) (vi : virtio_input) : virtio_input :=
  {| base := base vi; queues := queues vi; mtx := mtx vi; mevp := mevp vi;
     features := features vi; cfg := cfg vi; evdev := s;
     serial := serial vi; fd := fd vi; ready := ready vi;
     event_queue := event_queue vi; event_qsize := event_qsize vi;
     event_qindex := event_qindex vi |}.

Definition set_serial (s : option string) (vi : virtio_input) : virtio_input :=
  {| base := base vi; queues := queues vi; mtx := mtx vi; mevp := mevp vi;
     features := features vi; cfg := cfg vi; evdev := evdev vi;
     serial := s; fd := fd vi; ready := ready vi;
     event_queue := event_queue vi; event_qsize := event_qsize vi;
     event_qindex := event_qindex vi |}.

Definition set_fd (f : Z) (vi : virtio_input) : virtio_input :=
  {| base := base vi; queues := queues vi; mtx := mtx vi; mevp := mevp vi;
     features := features vi; cfg := cfg vi; evdev := evdev vi;
     serial := serial vi; fd := f; ready := ready vi;
     event_queue := event_queue vi; event_qsize := event_qsize vi;
     event_qindex := event_qindex vi |}.

Definition set_event_queue (q : option (list virtio_input_event_elem))
    (vi : virtio_input) : virtio_input :=
  {| base := base vi; queues := queues vi; mtx := mtx vi; mevp := mevp vi;
     features := features vi; cfg := cfg vi; evdev := evdev vi;
     serial := serial vi; fd := fd vi; ready := ready vi;
     event_queue := q; event_qsize := event_qsize vi;
     event_qindex := event_qindex vi |}.

Definition set_event_qsize (n : Z) (vi : virtio_input) : virtio_input :=
  {| base := base vi; queues := queues vi; mtx := mtx vi; mevp := mevp vi;
     features := features vi; cfg := cfg vi; evdev := evdev vi;
     serial := serial vi; fd := fd vi; ready := ready vi;
     event_queue := event_queue vi; event_qsize := n;
     event_qindex := event_qindex vi |}.

Definition set_event_qindex (n : Z) (vi : virtio_input) : virtio_input :=
  {| base := base vi; queues := queues vi; mtx := mtx vi; mevp := mevp vi;
     features := features vi; cfg := cfg vi; evdev := evdev vi;
     serial := serial vi; fd := fd vi; ready := ready vi;
     event_queue := event_queue vi; event_qsize := event_qsize vi;
     event_qindex := n |}.

(** ** Offered capabilities and the callback table

    VIRTIO_F_VERSION_1 comes from virtio.h; the development is parametric
    in its value. *)
Section Capabilities.

Variable VIRTIO_F_VERSION_1 : Z.

(** #define VIRTIO_INPUT_S_HOSTCAPS (VIRTIO_F_VERSION_1) *)
Definition VIRTIO_INPUT_S_HOSTCAPS : Z := VIRTIO_F_VERSION_1.

End Capabilities.

(** "Set [a] is contained in set [b]", on bitmasks. *)
Definition caps_subset (a b : Z) : Prop := Z.land a b = a.

(** ** Callbacks registered in virtio_input_ops *)

(** static void virtio_input_reset(void *vdev): empty body. *)
Definition virtio_input_reset (vdev : virtio_input) : virtio_input := vdev.

(** static void virtio_input_neg_features(void *vdev, uint64_t): empty body. *)
Definition virtio_input_neg_features (vdev : virtio_input)
    (negotiated_features : Z) : virtio_input := vdev.

(** static void virtio_input_set_status(void *vdev, uint64_t): empty body. *)
Definition virtio_input_set_status (vdev : virtio_input) (status : Z)
    : virtio_input := vdev.

(** The outcome of a configuration read: the int returned, the contents of
    [*retval] afterwards, and the device afterwards. *)
Record cfgread_result : Type := {
  rd_rc : Z;
  rd_retval : Z;
  rd_vdev : virtio_input
}.

(** static int virtio_input_cfgread(void *vdev, int offset, int size,
    uint32_t *retval): only [return 0]. *)
Definition virtio_input_cfgread (vdev : virtio_input) (offset sz : Z)
    (retval : Z) : cfgread_result :=
  {| rd_rc := 0; rd_retval := retval; rd_vdev := vdev |}.

(** static int virtio_input_cfgwrite(void *vdev, int offset, int size,
    uint32_t val): only [return 0]. *)
Definition virtio_input_cfgwrite (vdev : virtio_input) (offset sz : Z)
    (val : Z) : Z * virtio_input :=
  (0, vdev).

(** DPRINTF(params): prints when the static flag virtio_input_debug is
    non-zero. *)
Definition DPRINTF (virtio_input_debug : Z) (line : string) : list string :=
  if virtio_input_debug =? 0 then [] else [line].

(** static void virtio_input_notify_event_vq(void *vdev,
    struct virtio_vq_info *vq): one DPRINTF of the function name.  The
    result is the device, the queue and what went to standard output. *)
Definition virtio_input_notify_event_vq (virtio_input_debug : Z)
    (vdev : virtio_input) (vq : virtio_vq_info)
    : virtio_input * virtio_vq_info * list string :=
  (vdev, vq, DPRINTF virtio_input_debug "virtio_input_notify_event_vq").

(** static void virtio_input_notify_status_vq(...): empty body. *)
Definition virtio_input_notify_status_vq (vdev : virtio_input)
    (vq : virtio_vq_info) : virtio_input * virtio_vq_info :=
  (vdev, vq).

(** The host side of the descriptor [fd]: the raw events waiting to be
    read from the character device. *)
Record host_device : Type := {
  pending : list virtio_input_event
}.

(** static void virtio_input_read_event(int fd, enum ev_type t, void *arg):
    empty body; nothing is read from the host and nothing is written to
    the device. *)
Definition virtio_input_read_event (host : host_device) (fd_ : Z)
    (arg : virtio_input) : host_device * virtio_input :=
  (host, arg).

(** ** Resources and the log of acquisitions and releases *)

Inductive resource : Type :=
| RES_VI            (* the device struct, calloc / free *)
| RES_EVDEV         (* vi->evdev, strdup / free *)
| RES_SERIAL        (* vi->serial, strdup / free *)
| RES_FD (n : Z)    (* the host descriptor, open / close *)
| RES_MTX           (* vi->mtx, pthread_mutex_init / pthread_mutex_destroy *)
| RES_EVENT_QUEUE   (* vi->event_queue, calloc / free *)
| RES_MEVP.         (* vi->mevp, mevent_add / mevent_delete *)

Inductive action : Type :=
| Acquire (r : resource)
| Release (r : resource).

Definition resource_eqb (a b : resource) : bool :=
  match a, b with
  | RES_VI, RES_VI | RES_EVDEV, RES_EVDEV | RES_SERIAL, RES_SERIAL
  | RES_MTX, RES_MTX | RES_EVENT_QUEUE, RES_EVENT_QUEUE
  | RES_MEVP, RES_MEVP => true
  | RES_FD n, RES_FD m => n =? m
  | _, _ => false
  end.

Fixpoint acquired (l : list action) : list resource :=
  match l with
  | [] => []
  | Acquire r :: l' => r :: acquired l'
  | Release _ :: l' => acquired l'
  end.

Fixpoint released (l : list action) : list resource :=
  match l with
  | [] => []
  | Acquire _ :: l' => released l'
  | Release r :: l' => r :: released l'
  end.

(** Resources still held at the end of a log: acquired and not released
    afterwards. *)
Fixpoint remove_first (r : resource) (l : list resource) : list resource :=
  match l with
  | [] => []
  | x :: l' => if resource_eqb r x then l' else x :: remove_first r l'
  end.

Fixpoint live_from (held : list resource) (l : list action) : list resource :=
  match l with
  | [] => held
  | Acquire r :: l' => live_from (held ++ [r]) l'
  | Release r :: l' => live_from (remove_first r held) l'
  end.

Definition live (l : list action) : list resource := live_from [] l.

(** Position of a resource in the teardown sequence of the [fail:] label. *)
Definition teardown_rank (r : resource) : Z :=
  match r with
  | RES_MTX => 0
  | RES_EVENT_QUEUE => 1
  | RES_MEVP => 2
  | RES_FD _ => 3
  | RES_SERIAL => 4
  | RES_EVDEV => 5
  | RES_VI => 6
  end.

Definition teardown_before (a b : resource) : Prop :=
  teardown_rank a < teardown_rank b.

(** static void virtio_input_deinit(struct vmctx *ctx, struct pci_vdev *dev,
    char *opts): empty body.  The result is the device behind [dev] and the
    resource actions performed (none). *)
Definition virtio_input_deinit (dev : option virtio_input)
    (opts : option string) : option virtio_input * list action :=
  (dev, []).

(** ** Strings *)

(** char *strsep(char **stringp, const char *delim) for a one-character
    delimiter: the token up to the first delimiter, and the new value of
    [*stringp] (the text behind the delimiter, or NULL when there was
    none).  With [*stringp] NULL the token is NULL. *)
Fixpoint split_at (delim : ascii) (s : string) : string * option string :=
  match s with
  | EmptyString => (EmptyString, None)
  | String c s' =>
      if Ascii.eqb c delim then (EmptyString, Some s')
      else let (tok, rest) := split_at delim s' in (String c tok, rest)
  end.

Definition strsep (stringp : option string) (delim : ascii)
    : option string * option string :=
  match stringp with
  | None => (None, None)
  | Some s => let (tok, rest) := split_at delim s in (Some tok, rest)
  end.

(** ** The environment of virtio_input_init

    One field per call whose outcome the function tests or stores. *)
Record host_env : Type := {
  calloc_vi_ok : bool;            (* calloc(1, sizeof(struct virtio_input)) *)
  strdup_evdev_ok : bool;         (* strdup(opt) *)
  strdup_serial_ok : bool;        (* strdup(opts) *)
  open_rdwr : string -> Z;        (* open(path, O_RDWR): descriptor or -1 *)
  ioctl_gversion : Z -> Z;        (* ioctl(fd, EVIOCGVERSION, &ver) *)
  ioctl_grab : Z -> Z;            (* ioctl(fd, EVIOCGRAB, 1) *)
  mutexattr_init_rc : Z;          (* pthread_mutexattr_init *)
  mutexattr_settype_rc : Z;       (* pthread_mutexattr_settype *)
  mutex_init_rc : Z;              (* pthread_mutex_init *)
  calloc_queue_ok : bool;         (* calloc(event_qsize, sizeof elem) *)
  mevent_add_ok : Z -> bool;      (* mevent_add(fd, EVF_READ, ...) != NULL *)
  interrupt_init_rc : Z;          (* virtio_interrupt_init *)
  set_modern_bar_rc : Z           (* virtio_set_modern_bar *)
}.

(** ** virtio_input_init

    The locals of the function that outlive a statement: the device under
    construction, the flag [mutex_initialized], and the resource log. *)
Record init_state : Type := {
  st_vi : virtio_input;
  st_mutex_initialized : bool;
  st_log : list action
}.

(** A statement either falls through with a value or jumps to [fail:]. *)
Definition init_m (A : Type) : Type := init_state -> option A * init_state.

Definition ret {A : Type} (a : A) : init_m A := fun s => (Some a, s).

Definition bind {A B : Type} (m : init_m A) (k : A -> init_m B) : init_m B :=
  fun s =>
    match m s with
    | (Some a, s') => k a s'
    | (None, s') => (None, s')
    end.

Definition goto_fail {A : Type} : init_m A := fun s => (None, s).

Notation "x <- m ;; k" := (bind m (fun x => k))
  (at level 61, m at next level, right associativity).
Notation "m ;; k" := (bind m (fun _ => k))
  (at level 61, right associativity).

Definition when (c : bool) (m : init_m unit) : init_m unit :=
  if c then m else ret tt.

Definition get_vi : init_m virtio_input := fun s => (Some (st_vi s), s).

Definition update_vi (f : virtio_input -> virtio_input) : init_m unit :=
  fun s => (Some tt, {| st_vi := f (st_vi s);
                        st_mutex_initialized := st_mutex_initialized s;
                        st_log := st_log s |}).

Definition set_mutex_initialized (b : bool) : init_m unit :=
  fun s => (Some tt, {| st_vi := st_vi s;
                        st_mutex_initialized := b;
                        st_log := st_log s |}).

Definition emit (a : action) : init_m unit :=
  fun s => (Some tt, {| st_vi := st_vi s;
                        st_mutex_initialized := st_mutex_initialized s;
                        st_log := st_log s ++ [a] |}).

(** virtio_linkup(&vi->base, &virtio_input_ops, vi, dev, vi->queues) and
    the assignment vi->base.mtx = &vi->mtx. *)
Definition virtio_linkup (vi : virtio_input) : virtio_input :=
  set_base {| linked := true; base_mtx := true;
              intr_ready := intr_ready (base vi);
              guest_notifications := guest_notifications (base vi) |} vi.

Definition set_intr_ready (vi : virtio_input) : virtio_input :=
  set_base {| linked := linked (base vi); base_mtx := base_mtx (base vi);
              intr_ready := true;
              guest_notifications := guest_notifications (base vi) |} vi.

(** vi->queues[i].qsize = VIRTIO_INPUT_RINGSZ; vi->queues[i].notify = h *)
Definition setup_vq (h : vq_notify) (q : virtio_vq_info) : virtio_vq_info :=
  {| qsize := VIRTIO_INPUT_RINGSZ; notify := Some h;
     vq_avail := vq_avail q; vq_used := vq_used q |}.

Definition setup_queues (vi : virtio_input) : virtio_input :=
  match queues vi with
  | q0 :: q1 :: rest =>
      set_queues (setup_vq NOTIFY_EVENT_VQ q0
                  :: setup_vq NOTIFY_STATUS_VQ q1 :: rest) vi
  | _ => vi
  end.

(** The statements of virtio_input_init from strsep to the final
    [return rc], in source order.  The writes to the PCI identification
    registers of [dev] sit between the queue set-up and
    virtio_interrupt_init; they touch neither the device struct nor any
    resource and are not represented. *)
Definition virtio_input_init_body (env : host_env) (opts : option string)
    : init_m Z :=
  let (opt, opts) := strsep opts ","%char in
  match opt with
  | None => goto_fail
  | Some opt =>
      (* vi->evdev = strdup(opt) *)
      when (negb (strdup_evdev_ok env)) goto_fail ;;
      update_vi (set_evdev (Some opt)) ;;
      emit (Acquire RES_EVDEV) ;;
      (* if (opts) vi->serial = strdup(opts) *)
      match opts with
      | Some ser =>
          when (negb (strdup_serial_ok env)) goto_fail ;;
          update_vi (set_serial (Some ser)) ;;
          emit (Acquire RES_SERIAL)
      | None => ret tt
      end ;;
      (* vi->fd = open(vi->evdev, O_RDWR) *)
      update_vi (set_fd (open_rdwr env opt)) ;;
      vi <- get_vi ;;
      when (fd vi <? 0) goto_fail ;;
      emit (Acquire (RES_FD (fd vi))) ;;
      (* the two fcntl calls change the open file description only *)
      when (ioctl_gversion env (fd vi) <? 0) goto_fail ;;
      when (ioctl_grab env (fd vi) <? 0) goto_fail ;;
      (* rc = pthread_mutex_init(&vi->mtx, &attr);
         mutex_initialized = (rc == 0) ? true : false *)
      set_mutex_initialized (mutex_init_rc env =? 0) ;;
      (if mutex_init_rc env =? 0
       then update_vi (set_mtx true) ;; emit (Acquire RES_MTX)
       else ret tt) ;;
      update_vi (set_event_qsize VIRTIO_INPUT_PACKET_SIZE) ;;
      update_vi (set_event_qindex 0) ;;
      (* vi->event_queue = calloc(vi->event_qsize, sizeof(elem)) *)
      when (negb (calloc_queue_ok env)) goto_fail ;;
      update_vi (set_event_queue
                   (Some (repeat zero_elem (Z.to_nat VIRTIO_INPUT_PACKET_SIZE)))) ;;
      emit (Acquire RES_EVENT_QUEUE) ;;
      (* vi->mevp = mevent_add(vi->fd, EVF_READ, virtio_input_read_event, vi) *)
      when (negb (mevent_add_ok env (fd vi))) goto_fail ;;
      update_vi (set_mevp (Some {| me_fd := fd vi |})) ;;
      emit (Acquire RES_MEVP) ;;
      update_vi virtio_linkup ;;
      update_vi setup_queues ;;
      when (negb (interrupt_init_rc env =? 0)) goto_fail ;;
      update_vi set_intr_ready ;;
      (* rc = virtio_set_modern_bar(&vi->base, true); return rc *)
      ret (set_modern_bar_rc env)
  end.

Definition get_mutex_initialized : init_m bool :=
  fun s => (Some (st_mutex_initialized s), s).

Definition is_some {A : Type} (o : option A) : bool :=
  match o with Some _ => true | None => false end.

(** if (test(vi)) { ... } *)
Definition when_vi (test : virtio_input -> bool) (m : init_m unit)
    : init_m unit :=
  vi <- get_vi ;; when (test vi) m.

(** The [fail:] label, for the non-NULL [vi] every [goto fail] arrives
    with; the closing free(vi) is the last release. *)
Definition fail_label : init_m unit :=
  mutex_initialized <- get_mutex_initialized ;;
  when mutex_initialized
    (emit (Release RES_MTX) ;; update_vi (set_mtx false)) ;;
  when_vi (fun vi => is_some (event_queue vi))
    (emit (Release RES_EVENT_QUEUE) ;; update_vi (set_event_queue None)) ;;
  when_vi (fun vi => is_some (mevp vi))
    (emit (Release RES_MEVP) ;; update_vi (set_mevp None)) ;;
  when_vi (fun vi => fd vi >? 0)
    (vi <- get_vi ;; emit (Release (RES_FD (fd vi))) ;; update_vi (set_fd (-1))) ;;
  when_vi (fun vi => is_some (serial vi))
    (emit (Release RES_SERIAL) ;; update_vi (set_serial None)) ;;
  when_vi (fun vi => is_some (evdev vi))
    (emit (Release RES_EVDEV) ;; update_vi (set_evdev None)) ;;
  emit (Release RES_VI).

(** What a call of virtio_input_init leaves behind: the int returned, the
    resource log, and the device struct that is still allocated (NULL once
    [fail:] has freed it). *)
Record init_result : Type := {
  init_rc : Z;
  init_log : list action;
  init_vdev : option virtio_input
}.

Definition virtio_input_init (env : host_env) (opts : option string)
    : init_result :=
  match opts with
  | None =>                       (* if (!opts) return -1 *)
      {| init_rc := -1; init_log := []; init_vdev := None |}
  | Some _ =>
      if negb (calloc_vi_ok env)  (* if (!vi) return -1 *)
      then {| init_rc := -1; init_log := []; init_vdev := None |}
      else
        let s0 := {| st_vi := zero_virtio_input;
                     st_mutex_initialized := false;
                     st_log := [Acquire RES_VI] |} in
        match virtio_input_init_body env opts s0 with
        | (Some rc, s) =>
            {| init_rc := rc; init_log := st_log s;
               init_vdev := Some (st_vi s) |}
        | (None, s) =>
            let (_, s') := fail_label s in
            {| init_rc := -1; init_log := st_log s'; init_vdev := None |}
        end
  end.

(** ** Calls arriving at an attached device

    The entry points through which the framework, the guest and the event
    loop reach the device after attach. *)
Inductive device_call : Type :=
| CallReset
| CallNegFeatures (negotiated_features : Z)
| CallSetStatus (status : Z)
| CallCfgRead (offset sz retval : Z)
| CallCfgWrite (offset sz val : Z)
| CallNotifyEventVq (virtio_input_debug : Z) (qi : nat)
| CallNotifyStatusVq (qi : nat)
| CallReadEvent (host : host_device).

Definition run_call (c : device_call) (vi : virtio_input) : virtio_input :=
  match c with
  | CallReset => virtio_input_reset vi
  | CallNegFeatures x => virtio_input_neg_features vi x
  | CallSetStatus st => virtio_input_set_status vi st
  | CallCfgRead off sz rv => rd_vdev (virtio_input_cfgread vi off sz rv)
  | CallCfgWrite off sz v => snd (virtio_input_cfgwrite vi off sz v)
  | CallNotifyEventVq dbg qi =>
      fst (fst (virtio_input_notify_event_vq dbg vi (nth qi (queues vi) zero_vq)))
  | CallNotifyStatusVq qi =>
      fst (virtio_input_notify_status_vq vi (nth qi (queues vi) zero_vq))
  | CallReadEvent host => snd (virtio_input_read_event host (fd vi) vi)
  end.

Definition run_calls (cs : list device_call) (vi : virtio_input)
    : virtio_input :=
  fold_left (fun d c => run_call c d) cs vi.

(** ** Sample environments *)

(** Every call succeeds; open hands out descriptor 5. *)
Definition env_ok : host_env :=
  {| calloc_vi_ok := true; strdup_evdev_ok := true; strdup_serial_ok := true;
     open_rdwr := fun _ => 5; ioctl_gversion := fun _ => 0;
     ioctl_grab := fun _ => 0; mutexattr_init_rc := 0;
     mutexattr_settype_rc := 0; mutex_init_rc := 0;
     calloc_queue_ok := true; mevent_add_ok := fun _ => true;
     interrupt_init_rc := 0; set_modern_bar_rc := 0 |}.

(** As [env_ok], but virtio_interrupt_init reports an error. *)
Definition env_intr_fail : host_env :=
  {| calloc_vi_ok := true; strdup_evdev_ok := true; strdup_serial_ok := true;
     open_rdwr := fun _ => 5; ioctl_gversion := fun _ => 0;
     ioctl_grab := fun _ => 0; mutexattr_init_rc := 0;
     mutexattr_settype_rc := 0; mutex_init_rc := 0;
     calloc_queue_ok := true; mevent_add_ok := fun _ => true;
     interrupt_init_rc := -1; set_modern_bar_rc := 0 |}.

(** A host on which open fails for the empty path and succeeds otherwise. *)
Definition env_posix : host_env :=
  {| calloc_vi_ok := true; strdup_evdev_ok := true; strdup_serial_ok := true;
     open_rdwr := fun p => if String.eqb p "" then -1 else 5;
     ioctl_gversion := fun _ => 0;
     ioctl_grab := fun _ => 0; mutexattr_init_rc := 0;
     mutexattr_settype_rc := 0; mutex_init_rc := 0;
     calloc_queue_ok := true; mevent_add_ok := fun _ => true;
     interrupt_init_rc := 0; set_modern_bar_rc := 0 |}.

(** The device of a successful attach on [env_ok]. *)
Definition attached_device : virtio_input :=
  Eval vm_compute in
  match init_vdev (virtio_input_init env_ok (Some "/dev/input/event3,abc")) with
  | Some d => d
  | None => zero_virtio_input
  end.

(** Modelled from the spec: the guest making descriptors available on the
    event queue (the ring itself belongs to the transport library). *)
Definition guest_posts (descs : list iovec) (vi : virtio_input)
    : virtio_input :=
  match queues vi with
  | q0 :: rest =>
      set_queues ({| qsize := qsize q0; notify := notify q0;
                     vq_avail := (vq_avail q0 ++ descs)%list;
                     vq_used := vq_used q0 |} :: rest) vi
  | [] => vi
  end.

(** A batch as the host produces it: a key press (EV_KEY, KEY_A, 1)
    closed by the synchronization marker (EV_SYN, SYN_REPORT, 0). *)
Definition key_then_syn : list virtio_input_event :=
  [ {| ev_type := 1; ev_code := 30; ev_value := 1 |};
    {| ev_type := 0; ev_code := 0; ev_value := 0 |} ].

(** ** The callback table *)

(** sizeof(struct virtio_input_config) *)
Definition sizeof_virtio_input_config : Z := 3 + 5 + 128.

(** Modelled from the spec: struct virtio_ops is declared in virtio.h; the
    fields follow the comments of the initialiser of virtio_input_ops. *)
Record virtio_ops : Type := {
  name : string;
  nvq : Z;
  cfgsize : Z;
  reset : virtio_input -> virtio_input;
  qnotify : option (virtio_input -> virtio_vq_info
                    -> virtio_input * virtio_vq_info);
  cfgread : virtio_input -> Z -> Z -> Z -> cfgread_result;
  cfgwrite : virtio_input -> Z -> Z -> Z -> Z * virtio_input;
  apply_features : virtio_input -> Z -> virtio_input;
  set_status : virtio_input -> Z -> virtio_input;
  hv_caps : Z
}.

Definition virtio_input_ops (VIRTIO_F_VERSION_1 : Z) : virtio_ops :=
  {| name := "virtio_input";
     nvq := VIRTIO_INPUT_MAXQ;
     cfgsize := sizeof_virtio_input_config;
     reset := virtio_input_reset;
     qnotify := None;
     cfgread := virtio_input_cfgread;
     cfgwrite := virtio_input_cfgwrite;
     apply_features := virtio_input_neg_features;
     set_status := virtio_input_set_status;
     hv_caps := VIRTIO_INPUT_S_HOSTCAPS VIRTIO_F_VERSION_1 |}.

(** ** The steps of attach, listed

    Whether every call that virtio_input_init tests comes back good, in
    the order the function makes them; [None] is the NULL option string. *)
Definition attach_steps_ok (env : host_env) (opts : option string) : bool :=
  match opts with
  | None => false
  | Some s =>
      let (path, rest) := split_at ","%char s in
      let fdv := open_rdwr env path in
      calloc_vi_ok env
      && strdup_evdev_ok env
      && (match rest with Some _ => strdup_serial_ok env | None => true end)
      && (0 <=? fdv)
      && (0 <=? ioctl_gversion env fdv)
      && (0 <=? ioctl_grab env fdv)
      && calloc_queue_ok env
      && mevent_add_ok env fdv
      && (interrupt_init_rc env =? 0)
  end.

(** Whether character [c] occurs in [s]. *)
Fixpoint has_char (c : ascii) (s : string) : bool :=
  match s with
  | EmptyString => false
  | String c' s' => Ascii.eqb c' c || has_char c s'
  end.

(** The option string "<path>[,<serial>]" put together from its parts. *)
Definition join_opts (path : string) (ser : option string) : string :=
  match ser with
  | Some t => (path ++ String ","%char t)%string
  | None => path
  end.

(** * hypervisor/include/arch/x86/cpu.h *)

(** Casts to the unsigned types of the header. *)
Definition uint16_t (x : Z) : Z := x mod 2 ^ 16.
Definition uint32_t (x : Z) : Z := x mod 2 ^ 32.
Definition uint64_t (x : Z) : Z := x mod 2 ^ 64.

Definition CPU_PAGE_SHIFT : Z := 12.
Definition CPU_PAGE_SIZE : Z := 0x1000.
Definition CPU_PAGE_MASK : Z := 0xFFFFFFFFFFFFF000.
Definition CPU_STACK_ALIGN : Z := 16.

(** The registers the macros and inline functions of the header reach
    through their asm statements: the stack pointer, and the model-specific
    and extended control registers, each held as the pair (EAX, EDX) that
    wrmsr / xsetbv was given and that rdmsr hands back. *)
Record machine : Type := {
  reg_rsp : Z;
  reg_msr : Z -> Z * Z;
  reg_xcr : Z -> Z * Z
}.

(** asm volatile ("rdmsr" : "=a"(msrl), "=d"(msrh) : "c"(reg)) *)
Definition rdmsr (m : machine) (ecx : Z) : Z * Z := reg_msr m ecx.

(** asm volatile ("wrmsr" : : "c"(reg), "a"(msrl), "d"(msrh)) *)
Definition wrmsr (m : machine) (ecx eax edx : Z) : machine :=
  {| reg_rsp := reg_rsp m;
     reg_msr := fun r => if r =? ecx then (eax, edx) else reg_msr m r;
     reg_xcr := reg_xcr m |}.

(** asm volatile ("xsetbv" : : "c"(reg), "a"(low), "d"(high)) *)
Definition xsetbv (m : machine) (ecx eax edx : Z) : machine :=
  {| reg_rsp := reg_rsp m;
     reg_msr := reg_msr m;
     reg_xcr := fun r => if r =? ecx then (eax, edx) else reg_xcr m r |}.

(** CPU_MSR_READ(reg, msr_val_ptr):
    *msr_val_ptr = ((uint64_t)msrh << 32) | msrl *)
Definition CPU_MSR_READ (m : machine) (reg : Z) : Z :=
  let (msrl, msrh) := rdmsr m reg in
  Z.lor (uint64_t (Z.shiftl (uint64_t msrh) 32)) (uint64_t msrl).

(** CPU_MSR_WRITE(reg, msr_val):
    msrl = (uint32_t)msr_val; msrh = (uint32_t)(msr_val >> 32) *)
Definition CPU_MSR_WRITE (m : machine) (reg msr_val : Z) : machine :=
  let msrl := uint32_t msr_val in
  let msrh := uint32_t (Z.shiftr msr_val 32) in
  wrmsr m reg msrl msrh.

(** static inline uint64_t msr_read(uint32_t reg_num) *)
Definition msr_read (m : machine) (reg_num : Z) : Z :=
  CPU_MSR_READ m reg_num.

(** static inline void msr_write(uint32_t reg_num, uint64_t value64) *)
Definition msr_write (m : machine) (reg_num value64 : Z) : machine :=
  CPU_MSR_WRITE m reg_num value64.

(** static inline void write_xcr(int reg, uint64_t val) *)
Definition write_xcr (m : machine) (reg val : Z) : machine :=
  let low := uint32_t val in
  let high := uint32_t (Z.shiftr val 32) in
  xsetbv m reg low high.

(** CPU_SP_WRITE(stack_ptr):
    rsp = (uint64_t)stack_ptr & ~(CPU_STACK_ALIGN - 1UL); movq rsp, %rsp *)
Definition CPU_SP_WRITE (m : machine) (stack_ptr : Z) : machine :=
  let rsp := Z.land (uint64_t stack_ptr)
                    (uint64_t (Z.lnot (CPU_STACK_ALIGN - 1))) in
  {| reg_rsp := rsp; reg_msr := reg_msr m; reg_xcr := reg_xcr m |}.

(** static inline uint64_t cpu_rsp_get(void) *)
Definition cpu_rsp_get (m : machine) : Z := reg_rsp m.

(** PER_CPU_DATA_OFFSET(sym_addr), with the linker symbol
    _ld_cpu_data_start as an argument. *)
Definition PER_CPU_DATA_OFFSET (_ld_cpu_data_start sym_addr : Z) : Z :=
  uint64_t (uint64_t sym_addr - uint64_t _ld_cpu_data_start).

(** PER_CPU_DATA_SIZE, with both linker symbols as arguments. *)
Definition PER_CPU_DATA_SIZE (_ld_cpu_data_start _ld_cpu_data_end : Z) : Z :=
  uint64_t (uint64_t _ld_cpu_data_end - uint64_t _ld_cpu_data_start).

(** A register file with every register zero. *)
Definition machine_zero : machine :=
  {| reg_rsp := 0; reg_msr := fun _ => (0, 0); reg_xcr := fun _ => (0, 0) |}.

(** * Properties *)

(** ** Parsing of the option string *)

(** With a non-NULL [*stringp], strsep always yields a token; the test
    [if (!opt)] behind it cannot fire. *)
Lemma strsep_some (s : string) (delim : ascii) :
  exists tok rest, strsep (Some s) delim = (Some tok, rest).
Proof.
  unfold strsep. destruct (split_at delim s) as [tok rest].
  exists tok, rest. reflexivity.
Qed.

(** A string that starts with the delimiter has the empty token in front
    of it. *)
Lemma strsep_leading_delim (delim : ascii) (rest : string) :
  strsep (Some (String delim rest)) delim = (Some EmptyString, Some rest).
Proof.
  unfold strsep. simpl. rewrite Ascii.eqb_refl. reflexivity.
Qed.

(** ** Reasoning about a run of virtio_input_init *)

(** Evaluate the run of the attach routine held in hypothesis [H],
    splitting on each answer of the environment that it consults. *)
Ltac innermost_match H :=
  match type of H with
  | context [match ?x with _ => _ end] =>
      lazymatch x with
      | context [match _ with _ => _ end] => fail
      | _ => destruct x eqn:?
      end
  end.

Ltac run_init_with prune H :=
  unfold virtio_input_init, virtio_input_init_body, strsep in H;
  repeat match type of H with
         | context [split_at ?d ?s] =>
             tryif is_var s then destruct (split_at d s) as [? [?|]]
             else fail
         end;
  vm_compute in H;
  repeat (innermost_match H; try solve [prune]; vm_compute in H).

Ltac run_init H := run_init_with ltac:(idtac; fail) H.

(** Answers of the environment that a hypothesis on the host rules out. *)
Ltac descriptor_zero :=
  idtac;
  match goal with
  | Hnz : forall p, ?f p <> 0, Hz : ?f _ = 0 |- _ =>
      exact (False_ind _ (Hnz _ Hz))
  end.

Ltac open_succeeded :=
  idtac;
  match goal with
  | H : _ < 0 |- _ =>
      exfalso; clear - H; unfold Z.lt in H; discriminate H
  end.

(** Settle goals about explicit resource lists. *)
Ltac not_in_list :=
  let H := fresh "H" in
  intro H; cbn [In] in H;
  repeat (destruct H as [H|H]; [discriminate H|]);
  exact H.

Ltac split_list_at a R k :=
  lazymatch R with
  | a :: ?l2 => k (@nil resource) l2
  | ?x :: ?R' => split_list_at a R' ltac:(fun l1 l2 => k (x :: l1) l2)
  end.

Ltac perm_lists :=
  lazymatch goal with
  | |- Permutation [] [] => apply perm_nil
  | |- Permutation (?a :: ?l) ?R =>
      split_list_at a R
        ltac:(fun l1 l2 => apply (Permutation_cons_app l1 l2 a));
      cbn [app]; perm_lists
  end.

Ltac list_facts :=
  repeat match goal with
  | |- _ /\ _ => split
  | |- NoDup _ => constructor
  | |- StronglySorted _ _ => constructor
  | |- Forall _ _ => constructor
  | |- teardown_before _ _ => reflexivity
  | |- Permutation _ _ => cbn [acquired released]; perm_lists
  | |- ~ In _ _ => not_in_list
  | |- live _ = _ => unfold live; simpl; rewrite ?Pos.eqb_refl
  | |- _ = _ => reflexivity
  end.

(** ** The device left by virtio_input_init *)

(** Whenever virtio_input_init leaves a device behind, the fields that
    only calloc has written are still zero, the host descriptor is open and
    the event-loop registration refers to it. *)
Lemma init_vdev_fresh (env : host_env) (opts : option string)
    (d : virtio_input) :
  init_vdev (virtio_input_init env opts) = Some d ->
  features d = 0 /\ event_qindex d = 0 /\ cfg d = zero_config /\
  ready d = false /\ 0 <= fd d /\ mevp d = Some {| me_fd := fd d |} /\
  event_qsize d = VIRTIO_INPUT_PACKET_SIZE.
Proof.
  intros H. destruct opts as [s|]; [|discriminate].
  run_init H.
  all: try discriminate.
  all: injection H as <-.
  all: vm_compute; repeat split; try reflexivity; discriminate.
Qed.

(** No entry point changes the device. *)
Lemma run_call_id (c : device_call) (vi : virtio_input) : run_call c vi = vi.
Proof. destruct c; reflexivity. Qed.

Lemma run_calls_id (cs : list device_call) (vi : virtio_input) :
  run_calls cs vi = vi.
Proof.
  unfold run_calls. induction cs as [|c cs IH]; simpl.
  - reflexivity.
  - rewrite run_call_id. exact IH.
Qed.

Lemma attached_device_init :
  init_vdev (virtio_input_init env_ok (Some "/dev/input/event3,abc"))
  = Some attached_device.
Proof. vm_compute. reflexivity. Qed.

(** ** C1: teardown on a failed attach *)

(** C1, as stated, fails: when virtio_interrupt_init reports an error every
    resource has been acquired, and the [fail:] label releases the mutex
    first, then the staging buffer, then the event-loop registration; the
    reverse of the acquisition order would start with the registration. *)
Lemma init_teardown_not_reverse :
  let r := virtio_input_init env_intr_fail (Some "/dev/input/event3,abc") in
  init_rc r = -1 /\
  acquired (init_log r)
  = [RES_VI; RES_EVDEV; RES_SERIAL; RES_FD 5; RES_MTX; RES_EVENT_QUEUE;
     RES_MEVP] /\
  released (init_log r)
  = [RES_MTX; RES_EVENT_QUEUE; RES_MEVP; RES_FD 5; RES_SERIAL; RES_EVDEV;
     RES_VI] /\
  released (init_log r) <> rev (acquired (init_log r)).
Proof.
  vm_compute. repeat split; discriminate.
Qed.

(** C1 (amended): on a host whose open never hands out descriptor 0 and
    whose virtio_set_modern_bar succeeds, every failing run of
    virtio_input_init returns -1, leaves no device struct behind, releases
    after the last acquisition exactly the resources it acquired, each
    once, in the order mutex, staging buffer, event-loop registration,
    host descriptor, serial string, path string, device struct, and ends
    with nothing held. *)
Theorem init_fail_teardown (env : host_env) (opts : option string) :
  (forall p, open_rdwr env p <> 0) ->
  set_modern_bar_rc env = 0 ->
  init_rc (virtio_input_init env opts) <> 0 ->
  let r := virtio_input_init env opts in
  init_rc r = -1 /\
  init_vdev r = None /\
  init_log r = (map Acquire (acquired (init_log r))
                  ++ map Release (released (init_log r)))%list /\
  Permutation (acquired (init_log r)) (released (init_log r)) /\
  NoDup (released (init_log r)) /\
  StronglySorted teardown_before (released (init_log r)) /\
  live (init_log r) = [].
Proof.
  intros Hopen Hbar.
  destruct env; cbn [open_rdwr set_modern_bar_rc] in Hopen, Hbar.
  match goal with
  | |- context [virtio_input_init ?e ?o] =>
      remember (virtio_input_init e o) as r eqn:Hr
  end.
  intros Hrc r'; subst r'.
  destruct opts as [s|]; [|subst r; cbn; list_facts].
  run_init_with descriptor_zero Hr.
  all: subst r; cbn [init_rc init_log init_vdev] in *.
  all: try (exfalso; apply Hrc; exact Hbar).
  all: list_facts.
Qed.

(** The amended C1 at work: interrupt set-up fails after everything else
    succeeded. *)
Lemma init_fail_teardown_witness :
  let r := virtio_input_init env_intr_fail (Some "/dev/input/event3,abc") in
  init_rc r = -1 /\
  init_vdev r = None /\
  init_log r = (map Acquire (acquired (init_log r))
                  ++ map Release (released (init_log r)))%list /\
  Permutation (acquired (init_log r)) (released (init_log r)) /\
  NoDup (released (init_log r)) /\
  StronglySorted teardown_before (released (init_log r)) /\
  live (init_log r) = [].
Proof.
  apply (init_fail_teardown env_intr_fail (Some "/dev/input/event3,abc")).
  - intros p. simpl. lia.
  - reflexivity.
  - vm_compute. discriminate.
Defined.

(** The two runs the amended C1 leaves aside.  When
    virtio_set_modern_bar fails, its code is returned without passing
    through [fail:]: nothing is released and the device stays. *)
Example init_modern_bar_failure_skips_teardown :
  let env := {| calloc_vi_ok := true; strdup_evdev_ok := true;
                strdup_serial_ok := true; open_rdwr := fun _ => 5;
                ioctl_gversion := fun _ => 0; ioctl_grab := fun _ => 0;
                mutexattr_init_rc := 0; mutexattr_settype_rc := 0;
                mutex_init_rc := 0; calloc_queue_ok := true;
                mevent_add_ok := fun _ => true; interrupt_init_rc := 0;
                set_modern_bar_rc := -1 |} in
  let r := virtio_input_init env (Some "/dev/input/event3") in
  init_rc r = -1 /\ released (init_log r) = [] /\ init_vdev r <> None /\
  live (init_log r)
  = [RES_VI; RES_EVDEV; RES_FD 5; RES_MTX; RES_EVENT_QUEUE; RES_MEVP].
Proof.
  vm_compute. repeat split; discriminate.
Qed.

(** When open hands out descriptor 0, the test [vi->fd > 0] skips the
    close. *)
Example init_descriptor_zero_not_closed :
  let env := {| calloc_vi_ok := true; strdup_evdev_ok := true;
                strdup_serial_ok := true; open_rdwr := fun _ => 0;
                ioctl_gversion := fun _ => -1; ioctl_grab := fun _ => 0;
                mutexattr_init_rc := 0; mutexattr_settype_rc := 0;
                mutex_init_rc := 0; calloc_queue_ok := true;
                mevent_add_ok := fun _ => true; interrupt_init_rc := 0;
                set_modern_bar_rc := 0 |} in
  let r := virtio_input_init env (Some "/dev/input/event3") in
  init_rc r = -1 /\ live (init_log r) = [RES_FD 0].
Proof.
  vm_compute. split; reflexivity.
Qed.

(** ** C8: a missing device path *)

(** C8: when the option string is NULL, empty, or starts with the comma
    (no device path in front of it), and the host's open rejects the empty
    path, as POSIX prescribes (ENOENT), virtio_input_init returns -1,
    leaves no device, never holds a host descriptor and ends with nothing
    allocated.  The NULL string is turned down by the first test of the
    function; an empty path passes strsep and is turned down by open. *)
Theorem init_rejects_missing_path (env : host_env) (opts : option string) :
  open_rdwr env "" < 0 ->
  opts = None \/ opts = Some "" \/
    (exists rest, opts = Some (String ","%char rest)) ->
  let r := virtio_input_init env opts in
  init_rc r = -1 /\
  init_vdev r = None /\
  (forall n, ~ In (RES_FD n) (acquired (init_log r))) /\
  live (init_log r) = [].
Proof.
  intros Hopen Hopts.
  destruct env; cbn [open_rdwr] in Hopen.
  match goal with
  | |- context [virtio_input_init ?e ?o] =>
      remember (virtio_input_init e o) as r eqn:Hr
  end.
  intros r'; subst r'.
  destruct Hopts as [-> | [-> | [rest ->]]].
  all: run_init_with open_succeeded Hr.
  all: subst r; cbn [init_rc init_log init_vdev acquired].
  all: repeat split; try reflexivity; try (intro; not_in_list).
Qed.

(** C8 at work on a host whose open fails on the empty path only; the
    option string carries a serial but no path. *)
Lemma init_rejects_missing_path_witness :
  let r := virtio_input_init env_posix (Some ",abc") in
  init_rc r = -1 /\
  init_vdev r = None /\
  (forall n, ~ In (RES_FD n) (acquired (init_log r))) /\
  live (init_log r) = [].
Proof.
  apply (init_rejects_missing_path env_posix (Some ",abc")).
  - simpl. lia.
  - right. right. exists "abc". reflexivity.
Defined.

(** ** C7: detach *)

(** C7: virtio_input_deinit performs no release at all, so a second call
    finds the device as the first left it and does nothing; over a whole
    life of the device (attach, detach, detach) no resource is released
    twice. *)
Theorem deinit_idempotent (env : host_env) (opts o1 o2 : option string)
    (dev : option virtio_input) :
  let r := virtio_input_init env opts in
  let first := virtio_input_deinit dev o1 in
  let second := virtio_input_deinit (fst first) o2 in
  fst second = fst first /\
  snd second = [] /\
  NoDup (released (snd first ++ snd second)) /\
  NoDup (released (init_log r
                     ++ snd (virtio_input_deinit (init_vdev r) o1)
                     ++ snd (virtio_input_deinit (init_vdev r) o2))).
Proof.
  intros r first second. subst first second.
  cbn [virtio_input_deinit fst snd app released].
  repeat split; try constructor.
  rewrite app_nil_r. subst r.
  remember (virtio_input_init env opts) as r eqn:Hr.
  destruct opts as [s|]; [|subst r; cbn; constructor].
  run_init Hr.
  all: subst r; cbn [init_log released].
  all: list_facts.
Qed.

(** ** C9 and C10: the handlers that exist as stubs *)

(** C9: a call of virtio_input_notify_event_vq, with debugging on or off,
    returns the device and the queue as it received them, and so does any
    number of calls in a row: no backlog is retried, the used ring and the
    notification count stay as they were. *)
Theorem notify_event_vq_frame (virtio_input_debug : Z) (vdev : virtio_input)
    (vq : virtio_vq_info) (n : nat) :
  fst (virtio_input_notify_event_vq virtio_input_debug vdev vq) = (vdev, vq) /\
  Nat.iter n
    (fun st => fst (virtio_input_notify_event_vq virtio_input_debug
                      (fst st) (snd st)))
    (vdev, vq) = (vdev, vq).
Proof.
  split.
  - reflexivity.
  - induction n as [|n IH].
    + reflexivity.
    + rewrite Nat.iter_succ, IH. reflexivity.
Qed.

(** C10: for every device, offset, access size and value,
    virtio_input_cfgread returns 0 with [*retval] and the device as they
    were, and virtio_input_cfgwrite returns 0 with the device as it was. *)
Theorem cfg_dispatch_noop (vdev : virtio_input) (offset sz retval val : Z) :
  virtio_input_cfgread vdev offset sz retval
  = {| rd_rc := 0; rd_retval := retval; rd_vdev := vdev |} /\
  virtio_input_cfgwrite vdev offset sz val = (0, vdev).
Proof.
  split; reflexivity.
Qed.

(** ** C2: feature negotiation *)

(** C2, as stated, fails: on an attached device the guest proposes the
    version-marker bit (bit 32 in the virtio standard); the handler stores
    nothing, the feature field stays 0 and does not contain the bit. *)
Lemma neg_features_lacks_version_bit :
  let VIRTIO_F_VERSION_1 := Z.shiftl 1 32 in
  let d' := virtio_input_neg_features attached_device VIRTIO_F_VERSION_1 in
  caps_subset VIRTIO_F_VERSION_1 (VIRTIO_INPUT_S_HOSTCAPS VIRTIO_F_VERSION_1) /\
  features d' = 0 /\
  ~ caps_subset VIRTIO_F_VERSION_1 (features d').
Proof.
  vm_compute. repeat split; discriminate.
Qed.

(** C2 (amended): for every proposed bitmask, virtio_input_neg_features
    has no error path and stores nothing, so the device is unchanged; on a
    device left by attach, whatever calls came in between, the feature
    field is 0 before and after, which is a subset of the offered
    capabilities.  The offered capabilities entered in the callback table
    are VIRTIO_INPUT_S_HOSTCAPS, that is, the version-marker bit
    VIRTIO_F_VERSION_1 and nothing else. *)
Theorem neg_features_stores_nothing (VIRTIO_F_VERSION_1 : Z)
    (env : host_env) (opts : option string) (d : virtio_input)
    (cs : list device_call) (x : Z) :
  init_vdev (virtio_input_init env opts) = Some d ->
  let d0 := run_calls cs d in
  let d' := virtio_input_neg_features d0 x in
  (forall vdev, virtio_input_neg_features vdev x = vdev) /\
  d' = d0 /\
  features d' = 0 /\
  caps_subset (features d') (VIRTIO_INPUT_S_HOSTCAPS VIRTIO_F_VERSION_1) /\
  hv_caps (virtio_input_ops VIRTIO_F_VERSION_1) = VIRTIO_F_VERSION_1 /\
  caps_subset VIRTIO_F_VERSION_1 (hv_caps (virtio_input_ops VIRTIO_F_VERSION_1)).
Proof.
  intros Hinit d0 d'. subst d' d0.
  destruct (init_vdev_fresh env opts d Hinit) as (Hfeat & _).
  unfold virtio_input_neg_features. rewrite run_calls_id, Hfeat.
  repeat split.
  unfold caps_subset, virtio_input_ops, VIRTIO_INPUT_S_HOSTCAPS; simpl.
  apply Z.land_diag.
Qed.

(** The amended C2 on the attached sample device, after a reset and a
    configuration write, with the guest proposing bits 0 and 32. *)
Lemma neg_features_stores_nothing_witness :
  let V := Z.shiftl 1 32 in
  let d0 := run_calls [CallReset; CallCfgWrite 0 1 1] attached_device in
  let d' := virtio_input_neg_features d0 (V + 1) in
  (forall vdev, virtio_input_neg_features vdev (V + 1) = vdev) /\
  d' = d0 /\
  features d' = 0 /\
  caps_subset (features d') (VIRTIO_INPUT_S_HOSTCAPS V) /\
  hv_caps (virtio_input_ops V) = V /\
  caps_subset V (hv_caps (virtio_input_ops V)).
Proof.
  apply (neg_features_stores_nothing (Z.shiftl 1 32) env_ok
           (Some "/dev/input/event3,abc")).
  vm_compute. reflexivity.
Defined.

(** ** C3: reset *)

(** C3, as stated, fails: after a reset of the attached device the guest
    reads the one-byte size register (offset 2) into a variable holding
    0xff; the read reports success and the variable still holds 0xff, not
    the size 0 of the unset selector. *)
Lemma reset_then_cfgread_not_zero :
  let d' := virtio_input_reset attached_device in
  let r := virtio_input_cfgread d' 2 1 255 in
  select (cfg d') = VIRTIO_INPUT_CFG_UNSET /\
  rd_rc r = 0 /\ rd_retval r = 255 /\ rd_retval r <> 0.
Proof.
  vm_compute. repeat split; discriminate.
Qed.

(** C3 (amended): virtio_input_reset changes no field of the device.  On
    a device left by attach, whatever calls came in between, the state
    after reset is the state attach built: feature field 0, write cursor
    0, selector unset with size 0 and an all-zero 128-byte payload in the
    register block, host descriptor open and event-loop registration in
    place.  A configuration read after the reset returns 0 and hands
    nothing to the caller: [*retval] keeps its previous content. *)
Theorem reset_keeps_device (env : host_env) (opts : option string)
    (d : virtio_input) (cs : list device_call) :
  init_vdev (virtio_input_init env opts) = Some d ->
  let d' := virtio_input_reset (run_calls cs d) in
  (forall vdev, virtio_input_reset vdev = vdev) /\
  d' = d /\
  features d' = 0 /\
  event_qindex d' = 0 /\
  select (cfg d') = VIRTIO_INPUT_CFG_UNSET /\
  size (cfg d') = 0 /\
  u (cfg d') = repeat 0 128 /\
  0 <= fd d' /\
  mevp d' = Some {| me_fd := fd d' |} /\
  (forall offset sz retval,
     virtio_input_cfgread d' offset sz retval
     = {| rd_rc := 0; rd_retval := retval; rd_vdev := d' |}).
Proof.
  intros Hinit d'. subst d'.
  destruct (init_vdev_fresh env opts d Hinit)
    as (Hfeat & Hidx & Hcfg & _ & Hfd & Hmev & _).
  unfold virtio_input_reset. rewrite run_calls_id, Hfeat, Hidx, Hcfg.
  repeat split; assumption.
Qed.

(** The amended C3 on the attached sample device, after the guest wrote
    to the selector and negotiated features. *)
Lemma reset_keeps_device_witness :
  let d := attached_device in
  let d' := virtio_input_reset
              (run_calls [CallCfgWrite 0 1 1; CallNegFeatures 1] d) in
  (forall vdev, virtio_input_reset vdev = vdev) /\
  d' = d /\
  features d' = 0 /\
  event_qindex d' = 0 /\
  select (cfg d') = VIRTIO_INPUT_CFG_UNSET /\
  size (cfg d') = 0 /\
  u (cfg d') = repeat 0 128 /\
  0 <= fd d' /\
  mevp d' = Some {| me_fd := fd d' |} /\
  (forall offset sz retval,
     virtio_input_cfgread d' offset sz retval
     = {| rd_rc := 0; rd_retval := retval; rd_vdev := d' |}).
Proof.
  apply (reset_keeps_device env_ok (Some "/dev/input/event3,abc")).
  vm_compute. reflexivity.
Defined.

(** ** C4: configuration reads *)

(** C4, as stated, fails: with the selector unset, reading the size
    register (offset 2, one byte) into a variable holding 0xff, or the
    first payload word (offset 8, four bytes) into one holding 0xffffffff,
    reports success and delivers neither a size 0 nor a zero payload: the
    variables come back as they went in. *)
Lemma cfgread_unset_selector_not_zero :
  let rsize := virtio_input_cfgread attached_device 2 1 255 in
  let rword := virtio_input_cfgread attached_device 8 4 4294967295 in
  select (cfg attached_device) = VIRTIO_INPUT_CFG_UNSET /\
  rd_rc rsize = 0 /\ rd_retval rsize = 255 /\ rd_retval rsize <> 0 /\
  rd_rc rword = 0 /\ rd_retval rword = 4294967295 /\ rd_retval rword <> 0.
Proof.
  vm_compute. repeat split; discriminate.
Qed.

(** C4 (amended): on a device left by attach, after any calls (among them
    writes of any selector and sub-selector), a configuration read at any
    offset and of any size never signals an error: it returns 0, leaves
    [*retval] and the device untouched, and computes nothing.  The
    register block of the device holds size 0 and an all-zero 128-byte
    payload throughout. *)
Theorem cfgread_never_errors (env : host_env) (opts : option string)
    (d : virtio_input) (cs : list device_call) (offset sz retval : Z) :
  init_vdev (virtio_input_init env opts) = Some d ->
  let d' := run_calls cs d in
  let r := virtio_input_cfgread d' offset sz retval in
  rd_rc r = 0 /\
  rd_retval r = retval /\
  rd_vdev r = d' /\
  size (cfg d') = 0 /\
  u (cfg d') = repeat 0 128 /\
  List.length (u (cfg d')) = 128%nat.
Proof.
  intros Hinit d' r. subst r d'.
  destruct (init_vdev_fresh env opts d Hinit) as (_ & _ & Hcfg & _).
  rewrite run_calls_id, Hcfg.
  repeat split.
Qed.

(** The amended C4 on the attached sample device, after the guest selected
    the absolute-axis record of axis 0x3f. *)
Lemma cfgread_never_errors_witness :
  let d' := run_calls [CallCfgWrite 0 1 VIRTIO_INPUT_CFG_ABS_INFO;
                       CallCfgWrite 1 1 63] attached_device in
  let r := virtio_input_cfgread d' 2 1 255 in
  rd_rc r = 0 /\
  rd_retval r = 255 /\
  rd_vdev r = d' /\
  size (cfg d') = 0 /\
  u (cfg d') = repeat 0 128 /\
  List.length (u (cfg d')) = 128%nat.
Proof.
  apply (cfgread_never_errors env_ok (Some "/dev/input/event3,abc")).
  vm_compute. reflexivity.
Defined.

(** ** C5: configuration writes *)

(** C5, as stated, fails: the guest writes the selector id-name to the
    select register (offset 0) and 5 to the subsel register (offset 1) of
    the attached device; both writes report success and the registers
    still hold 0. *)
Lemma cfgwrite_select_not_stored :
  let w0 := virtio_input_cfgwrite attached_device 0 1 VIRTIO_INPUT_CFG_ID_NAME in
  let w1 := virtio_input_cfgwrite (snd w0) 1 1 5 in
  fst w0 = 0 /\ select (cfg (snd w0)) <> VIRTIO_INPUT_CFG_ID_NAME /\
  fst w1 = 0 /\ subsel (cfg (snd w1)) <> 5.
Proof.
  vm_compute. repeat split; discriminate.
Qed.

(** C5 (amended): a guest write to the configuration space, to the select
    or subsel register or anywhere else, returns 0 and stores nothing: the
    device is unchanged and no payload is computed.  On a device left by
    attach the register block therefore stays as calloc made it, with
    select unset and subsel 0. *)
Theorem cfgwrite_stores_nothing (env : host_env) (opts : option string)
    (d : virtio_input) (cs : list device_call) (offset sz val : Z) :
  init_vdev (virtio_input_init env opts) = Some d ->
  let d0 := run_calls cs d in
  let w := virtio_input_cfgwrite d0 offset sz val in
  fst w = 0 /\
  snd w = d0 /\
  cfg (snd w) = zero_config /\
  select (cfg (snd w)) = VIRTIO_INPUT_CFG_UNSET /\
  subsel (cfg (snd w)) = 0.
Proof.
  intros Hinit d0 w. subst w d0.
  destruct (init_vdev_fresh env opts d Hinit) as (_ & _ & Hcfg & _).
  unfold virtio_input_cfgwrite. cbn [fst snd].
  rewrite run_calls_id, Hcfg.
  repeat split.
Qed.

(** The amended C5 on the attached sample device: a write of id-serial to
    the select register. *)
Lemma cfgwrite_stores_nothing_witness :
  let d0 := run_calls [] attached_device in
  let w := virtio_input_cfgwrite d0 0 1 VIRTIO_INPUT_CFG_ID_SERIAL in
  fst w = 0 /\
  snd w = d0 /\
  cfg (snd w) = zero_config /\
  select (cfg (snd w)) = VIRTIO_INPUT_CFG_UNSET /\
  subsel (cfg (snd w)) = 0.
Proof.
  apply (cfgwrite_stores_nothing env_ok (Some "/dev/input/event3,abc")).
  vm_compute. reflexivity.
Defined.

(** ** C6: draining a batch *)

(** C6, as stated, fails: the host holds a completed batch of K = 2 events
    and the guest has posted J = 1 descriptor on the event queue.  The
    readiness callback followed by the event-queue notify handler writes
    no descriptor (not 1) and raises no notification (not 1); the batch is
    still with the host and the descriptor still available.  The device
    struct has no drop counter. *)
Lemma drain_underflow_writes_nothing :
  let d := guest_posts [{| iov_base := 4096; iov_len := 8 |}] attached_device in
  let host := {| pending := key_then_syn |} in
  let pumped := virtio_input_read_event host (fd d) d in
  let notified :=
    virtio_input_notify_event_vq 0 (snd pumped)
      (nth 0 (queues (snd pumped)) zero_vq) in
  let d' := fst (fst notified) in
  List.length (pending host) = 2%nat /\
  List.length (vq_avail (nth 0 (queues d) zero_vq)) = 1%nat /\
  List.length (vq_used (nth 0 (queues d') zero_vq)) = 0%nat /\
  List.length (vq_used (nth 0 (queues d') zero_vq)) <> 1%nat /\
  guest_notifications (base d') = 0%nat /\
  guest_notifications (base d') <> 1%nat /\
  pending (fst pumped) = key_then_syn /\
  List.length (vq_avail (nth 0 (queues d') zero_vq)) = 1%nat.
Proof.
  vm_compute. repeat split; discriminate.
Qed.

(** C6 (amended): whatever the host has pending (K events) and whatever
    the guest has posted (J descriptors), the readiness callback
    virtio_input_read_event and the event-queue notify handler leave host,
    device and queues as they were: no descriptor is written, none is
    consumed, no notification is raised, and nothing is counted as
    dropped. *)
Theorem event_path_writes_nothing (host : host_device) (vdev : virtio_input)
    (virtio_input_debug : Z) (qi : nat) :
  let pumped := virtio_input_read_event host (fd vdev) vdev in
  let notified :=
    virtio_input_notify_event_vq virtio_input_debug (snd pumped)
      (nth qi (queues (snd pumped)) zero_vq) in
  let d' := fst (fst notified) in
  fst pumped = host /\
  d' = vdev /\
  map vq_used (queues d') = map vq_used (queues vdev) /\
  map vq_avail (queues d') = map vq_avail (queues vdev) /\
  guest_notifications (base d') = guest_notifications (base vdev).
Proof.
  repeat split.
Qed.

(** * Further properties of the attach routine *)

(** ** Which runs succeed *)

Lemma init_outcome (env : host_env) (opts : option string) :
  let r := virtio_input_init env opts in
  is_some (init_vdev r) = attach_steps_ok env opts /\
  init_rc r = if attach_steps_ok env opts then set_modern_bar_rc env else -1.
Proof.
  destruct env.
  match goal with
  | |- context [virtio_input_init ?e ?o] =>
      remember (virtio_input_init e o) as r eqn:Hr
  end.
  intros r'; subst r'.
  destruct opts as [s|]; [|subst r; split; reflexivity].
  unfold attach_steps_ok.
  cbn [calloc_vi_ok strdup_evdev_ok strdup_serial_ok open_rdwr ioctl_gversion
       ioctl_grab calloc_queue_ok mevent_add_ok interrupt_init_rc
       set_modern_bar_rc].
  run_init Hr.
  all: subst r; cbn [init_rc init_vdev is_some].
  all: split; reflexivity.
Qed.

(** virtio_input_init leaves a device exactly when the option string is
    not NULL and every call it tests succeeds: calloc, the strdup of the
    path and of the serial if there is one, open, the two ioctl, the calloc
    of the staging buffer, mevent_add and virtio_interrupt_init.  It then
    returns what virtio_set_modern_bar returned; in every other run it
    returns -1.  The result of pthread_mutex_init plays no part. *)
Theorem init_succeeds_iff (env : host_env) (opts : option string) :
  let r := virtio_input_init env opts in
  (init_vdev r <> None <-> attach_steps_ok env opts = true) /\
  (attach_steps_ok env opts = true -> init_rc r = set_modern_bar_rc env) /\
  (attach_steps_ok env opts = false -> init_rc r = -1 /\ init_vdev r = None).
Proof.
  intros r. destruct (init_outcome env opts) as [Hdev Hrc].
  fold r in Hdev, Hrc.
  destruct (attach_steps_ok env opts); destruct (init_vdev r);
    try discriminate Hdev.
  - repeat split; try assumption; try discriminate; congruence.
  - repeat split; try assumption; try discriminate; congruence.
Qed.

(** ** The device and the log of a successful run *)

Lemma split_at_no_delim (c : ascii) (s : string) :
  has_char c s = false -> split_at c s = (s, None).
Proof.
  induction s as [|c' s IH]; simpl; intros H.
  - reflexivity.
  - apply orb_false_iff in H. destruct H as [Hc Hs].
    rewrite Hc, (IH Hs). reflexivity.
Qed.

Lemma split_at_app (c : ascii) (p r : string) :
  has_char c p = false ->
  split_at c (p ++ String c r)%string = (p, Some r).
Proof.
  induction p as [|c' p IH]; simpl; intros H.
  - rewrite Ascii.eqb_refl. reflexivity.
  - apply orb_false_iff in H. destruct H as [Hc Hp].
    rewrite Hc, (IH Hp). reflexivity.
Qed.

(** Everything about a device that virtio_input_init leaves behind, in
    terms of the option string and the answers of the host. *)
Lemma init_vdev_parts (env : host_env) (s : string) (d : virtio_input) :
  init_vdev (virtio_input_init env (Some s)) = Some d ->
  let r := virtio_input_init env (Some s) in
  let p := split_at ","%char s in
  evdev d = Some (fst p) /\
  serial d = snd p /\
  fd d = open_rdwr env (fst p) /\
  mtx d = (mutex_init_rc env =? 0) /\
  base d = {| linked := true; base_mtx := true; intr_ready := true;
              guest_notifications := 0 |} /\
  queues d = [ {| qsize := VIRTIO_INPUT_RINGSZ;
                  notify := Some NOTIFY_EVENT_VQ;
                  vq_avail := []; vq_used := [] |};
               {| qsize := VIRTIO_INPUT_RINGSZ;
                  notify := Some NOTIFY_STATUS_VQ;
                  vq_avail := []; vq_used := [] |} ] /\
  event_queue d
  = Some (repeat zero_elem (Z.to_nat VIRTIO_INPUT_PACKET_SIZE)) /\
  released (init_log r) = [] /\
  init_log r = map Acquire (acquired (init_log r)) /\
  acquired (init_log r)
  = ([RES_VI; RES_EVDEV]
       ++ (if is_some (snd p) then [RES_SERIAL] else [])
       ++ [RES_FD (fd d)]
       ++ (if mutex_init_rc env =? 0 then [RES_MTX] else [])
       ++ [RES_EVENT_QUEUE; RES_MEVP])%list.
Proof.
  destruct env.
  cbn [open_rdwr mutex_init_rc].
  remember (virtio_input_init _ (Some s)) as r eqn:Hr.
  intros H.
  run_init Hr.
  all: subst r; cbn [init_vdev init_log] in *; try discriminate H.
  all: injection H as <-.
  all: vm_compute; repeat split; symmetry; assumption.
Qed.

Lemma split_at_join (path : string) (ser : option string) :
  has_char ","%char path = false ->
  split_at ","%char (join_opts path ser) = (path, ser).
Proof.
  intros H. destruct ser as [t|]; simpl.
  - apply split_at_app; exact H.
  - apply split_at_no_delim; exact H.
Qed.

(** Attach takes the text in front of the first comma of the option string
    as the device path and everything behind it, further commas included,
    as the serial; without a comma the whole string is the path and there
    is no serial.  The descriptor of the device is the one open returned
    for that path. *)
Theorem init_parses_options (env : host_env) (path : string)
    (ser : option string) (d : virtio_input) :
  has_char ","%char path = false ->
  init_vdev (virtio_input_init env (Some (join_opts path ser))) = Some d ->
  evdev d = Some path /\ serial d = ser /\ fd d = open_rdwr env path.
Proof.
  intros Hpath H.
  destruct (init_vdev_parts env _ d H) as (He & Hs & Hf & _).
  rewrite (split_at_join path ser Hpath) in He, Hs, Hf.
  repeat split; assumption.
Qed.

(** The parse at work: a serial that itself contains a comma. *)
Lemma init_parses_options_witness :
  let d := set_serial (Some "ab,c") attached_device in
  evdev d = Some "/dev/input/event3" /\ serial d = Some "ab,c" /\
  fd d = open_rdwr env_ok "/dev/input/event3".
Proof.
  apply (init_parses_options env_ok "/dev/input/event3" (Some "ab,c")).
  - reflexivity.
  - vm_compute. reflexivity.
Defined.

(** A successful attach leaves both virtqueues with ring size 64 and
    their notify handlers in place, a staging buffer of 10 zeroed elements
    with capacity 10 and cursor 0, and the event-loop registration on the
    descriptor of the device.  The mutex counts as initialised exactly when
    pthread_mutex_init succeeded, and is handed to the framework either
    way.  Nothing has been released: the log is the acquisitions alone, in
    the order device struct, path, serial (if given), descriptor, mutex
    (if initialised), staging buffer, registration. *)
Theorem init_device_shape (env : host_env) (s : string) (d : virtio_input) :
  init_vdev (virtio_input_init env (Some s)) = Some d ->
  let r := virtio_input_init env (Some s) in
  map qsize (queues d) = [VIRTIO_INPUT_RINGSZ; VIRTIO_INPUT_RINGSZ] /\
  map notify (queues d) = [Some NOTIFY_EVENT_VQ; Some NOTIFY_STATUS_VQ] /\
  event_queue d = Some (repeat zero_elem 10) /\
  event_qsize d = 10 /\ event_qindex d = 0 /\
  mevp d = Some {| me_fd := fd d |} /\
  mtx d = (mutex_init_rc env =? 0) /\
  base_mtx (base d) = true /\
  init_log r = map Acquire (acquired (init_log r)) /\
  acquired (init_log r)
  = ([RES_VI; RES_EVDEV]
       ++ (if is_some (serial d) then [RES_SERIAL] else [])
       ++ [RES_FD (fd d)]
       ++ (if mtx d then [RES_MTX] else [])
       ++ [RES_EVENT_QUEUE; RES_MEVP])%list.
Proof.
  intros H r.
  destruct (init_vdev_parts env s d H)
    as (_ & Hser & _ & Hmtx & Hbase & Hq & Heq & _ & Hlog & Hacq).
  destruct (init_vdev_fresh env (Some s) d H)
    as (_ & Hidx & _ & _ & _ & Hmev & Hqs).
  fold r in Hlog, Hacq.
  rewrite Hq, Heq, Hbase, Hmtx, Hser, Hidx, Hqs.
  repeat split; assumption.
Qed.

(** The shape of the attached sample device. *)
Lemma init_device_shape_witness :
  let d := attached_device in
  let r := virtio_input_init env_ok (Some "/dev/input/event3,abc") in
  map qsize (queues d) = [VIRTIO_INPUT_RINGSZ; VIRTIO_INPUT_RINGSZ] /\
  map notify (queues d) = [Some NOTIFY_EVENT_VQ; Some NOTIFY_STATUS_VQ] /\
  event_queue d = Some (repeat zero_elem 10) /\
  event_qsize d = 10 /\ event_qindex d = 0 /\
  mevp d = Some {| me_fd := fd d |} /\
  mtx d = (mutex_init_rc env_ok =? 0) /\
  base_mtx (base d) = true /\
  init_log r = map Acquire (acquired (init_log r)) /\
  acquired (init_log r)
  = ([RES_VI; RES_EVDEV]
       ++ (if is_some (serial d) then [RES_SERIAL] else [])
       ++ [RES_FD (fd d)]
       ++ (if mtx d then [RES_MTX] else [])
       ++ [RES_EVENT_QUEUE; RES_MEVP])%list.
Proof.
  apply (init_device_shape env_ok "/dev/input/event3,abc" attached_device).
  vm_compute. reflexivity.
Defined.

(** ** What no run does *)

Ltac in_list :=
  cbn [In]; repeat first [left; reflexivity | right].

Ltac released_subset :=
  let x := fresh "x" in
  let Hx := fresh "Hx" in
  intros x Hx; cbn [In] in Hx;
  repeat (destruct Hx as [Hx|Hx]; [rewrite <- Hx; in_list|]);
  destruct Hx.

Ltac descriptor_sign :=
  let n := fresh "n" in
  let Hn := fresh "Hn" in
  intros n Hn; cbn [In] in Hn;
  repeat (destruct Hn as [Hn|Hn];
          [first [discriminate Hn | injection Hn as <-; first [reflexivity | discriminate]]|]);
  destruct Hn.

(** On every run of virtio_input_init, whatever the host answers, all
    releases come after the last acquisition, no resource is acquired or
    released twice, only acquired resources are released, a descriptor that
    is closed is positive, a descriptor that was taken is not negative, and
    a run that leaves a device has released nothing. *)
Theorem init_log_safe (env : host_env) (opts : option string) :
  let r := virtio_input_init env opts in
  init_log r = (map Acquire (acquired (init_log r))
                  ++ map Release (released (init_log r)))%list /\
  NoDup (acquired (init_log r)) /\
  NoDup (released (init_log r)) /\
  incl (released (init_log r)) (acquired (init_log r)) /\
  (forall n, In (RES_FD n) (released (init_log r)) -> 0 < n) /\
  (forall n, In (RES_FD n) (acquired (init_log r)) -> 0 <= n) /\
  (init_vdev r <> None -> released (init_log r) = []).
Proof.
  remember (virtio_input_init env opts) as r eqn:Hr.
  intros r'; subst r'.
  destruct opts as [s|].
  - run_init Hr.
    all: subst r; cbn [init_log init_vdev acquired released].
    all: repeat match goal with
                | |- _ /\ _ => split
                | |- NoDup _ => constructor
                | |- ~ In _ _ => not_in_list
                | |- incl _ _ => released_subset
                | |- forall n, In _ _ -> _ => descriptor_sign
                | |- None <> None -> _ =>
                    let H := fresh in intro H; exfalso; apply H; reflexivity
                | |- _ -> _ => intros _
                | |- _ = _ => reflexivity
                end.
  - subst r. cbn. repeat split; try constructor.
    + intros x [].
    + intros n [].
    + intros n [].
Qed.

(** ** Errors that bypass the teardown *)

Lemma live_from_acquires (held l : list resource) :
  live_from held (map Acquire l) = (held ++ l)%list.
Proof.
  revert held. induction l as [|x l IH]; intros held; simpl.
  - symmetry. apply app_nil_r.
  - rewrite IH, <- app_assoc. reflexivity.
Qed.

(** When every tested step succeeds and virtio_set_modern_bar then
    reports an error, virtio_input_init returns that error without passing
    through the teardown: nothing is released, the device struct stays
    allocated with its event-loop registration on the open descriptor, and
    every acquired resource is still held. *)
Theorem init_modern_bar_error_keeps_all (env : host_env)
    (opts : option string) :
  attach_steps_ok env opts = true ->
  set_modern_bar_rc env <> 0 ->
  let r := virtio_input_init env opts in
  init_rc r = set_modern_bar_rc env /\
  init_rc r <> 0 /\
  (exists d, init_vdev r = Some d /\ 0 <= fd d /\
             mevp d = Some {| me_fd := fd d |} /\
             In (RES_FD (fd d)) (live (init_log r))) /\
  released (init_log r) = [] /\
  live (init_log r) = acquired (init_log r) /\
  In RES_VI (live (init_log r)) /\
  In RES_MEVP (live (init_log r)).
Proof.
  intros Hok Hbar r.
  destruct (init_outcome env opts) as [Hdev Hrc].
  fold r in Hdev, Hrc. rewrite Hok in Hdev, Hrc.
  destruct opts as [s|]; [|discriminate Hok].
  destruct (init_vdev r) as [d|] eqn:Hd; [|discriminate Hdev].
  destruct (init_vdev_parts env s d Hd)
    as (_ & _ & _ & _ & _ & _ & _ & Hrel & Hlog & Hacq).
  destruct (init_vdev_fresh env (Some s) d Hd)
    as (_ & _ & _ & _ & Hfd & Hmev & _).
  fold r in Hrel, Hlog, Hacq.
  assert (Hlive : live (init_log r) = acquired (init_log r)).
  { unfold live. rewrite Hlog at 1. apply live_from_acquires. }
  rewrite Hlive, Hacq.
  repeat split; try assumption.
  - rewrite Hrc. exact Hbar.
  - exists d. repeat split; try assumption.
    apply in_or_app. right. apply in_or_app. right.
    apply in_or_app. left. left. reflexivity.
  - left. reflexivity.
  - repeat (apply in_or_app; right). right. left. reflexivity.
Qed.

(** A host on which everything succeeds but virtio_set_modern_bar. *)
Lemma init_modern_bar_error_keeps_all_witness :
  let env := {| calloc_vi_ok := true; strdup_evdev_ok := true;
                strdup_serial_ok := true; open_rdwr := fun _ => 5;
                ioctl_gversion := fun _ => 0; ioctl_grab := fun _ => 0;
                mutexattr_init_rc := 0; mutexattr_settype_rc := 0;
                mutex_init_rc := 0; calloc_queue_ok := true;
                mevent_add_ok := fun _ => true; interrupt_init_rc := 0;
                set_modern_bar_rc := -1 |} in
  let r := virtio_input_init env (Some "/dev/input/event3") in
  init_rc r = set_modern_bar_rc env /\
  init_rc r <> 0 /\
  (exists d, init_vdev r = Some d /\ 0 <= fd d /\
             mevp d = Some {| me_fd := fd d |} /\
             In (RES_FD (fd d)) (live (init_log r))) /\
  released (init_log r) = [] /\
  live (init_log r) = acquired (init_log r) /\
  In RES_VI (live (init_log r)) /\
  In RES_MEVP (live (init_log r)).
Proof.
  intros env.
  apply (init_modern_bar_error_keeps_all env (Some "/dev/input/event3")).
  - vm_compute. reflexivity.
  - vm_compute. discriminate.
Defined.

Ltac other_descriptor :=
  idtac;
  match goal with
  | H : Z.pos _ = 0 |- _ => discriminate H
  | H : Z.neg _ = 0 |- _ => discriminate H
  end.

(** When open hands out descriptor 0 and a later step fails, the teardown
    frees the strings and the device struct but skips the close (its test
    is [vi->fd > 0]): the run returns -1 with descriptor 0 still open, and
    it is the only resource left. *)
Theorem init_descriptor_zero_stays_open (env : host_env) (s : string) :
  calloc_vi_ok env = true ->
  strdup_evdev_ok env = true ->
  strdup_serial_ok env = true ->
  open_rdwr env (fst (split_at ","%char s)) = 0 ->
  attach_steps_ok env (Some s) = false ->
  let r := virtio_input_init env (Some s) in
  init_rc r = -1 /\
  init_vdev r = None /\
  In (RES_FD 0) (acquired (init_log r)) /\
  ~ In (RES_FD 0) (released (init_log r)) /\
  live (init_log r) = [RES_FD 0].
Proof.
  destruct env.
  cbn [calloc_vi_ok strdup_evdev_ok strdup_serial_ok open_rdwr].
  intros -> -> -> Hopen Hfail.
  remember (virtio_input_init _ (Some s)) as r eqn:Hr.
  unfold virtio_input_init, virtio_input_init_body, strsep in Hr.
  unfold attach_steps_ok in Hfail.
  destruct (split_at ","%char s) as [tok [rest|]].
  all: cbn [fst] in Hopen.
  all: cbv beta zeta iota in Hfail.
  all: cbn [calloc_vi_ok strdup_evdev_ok strdup_serial_ok open_rdwr
            ioctl_gversion ioctl_grab calloc_queue_ok mevent_add_ok
            interrupt_init_rc] in Hfail.
  all: run_init_with other_descriptor Hr.
  all: try (cbn in Hfail; discriminate Hfail).
  all: subst r; cbn [init_rc init_vdev init_log acquired released].
  all: repeat split; try in_list; try not_in_list.
  all: unfold live; simpl; reflexivity.
Qed.

(** A host whose open returns descriptor 0 and whose device is not an
    evdev device (the version ioctl fails). *)
Lemma init_descriptor_zero_stays_open_witness :
  let env := {| calloc_vi_ok := true; strdup_evdev_ok := true;
                strdup_serial_ok := true; open_rdwr := fun _ => 0;
                ioctl_gversion := fun _ => -1; ioctl_grab := fun _ => 0;
                mutexattr_init_rc := 0; mutexattr_settype_rc := 0;
                mutex_init_rc := 0; calloc_queue_ok := true;
                mevent_add_ok := fun _ => true; interrupt_init_rc := 0;
                set_modern_bar_rc := 0 |} in
  let r := virtio_input_init env (Some "/dev/null,x") in
  init_rc r = -1 /\
  init_vdev r = None /\
  In (RES_FD 0) (acquired (init_log r)) /\
  ~ In (RES_FD 0) (released (init_log r)) /\
  live (init_log r) = [RES_FD 0].
Proof.
  intros env.
  apply (init_descriptor_zero_stays_open env "/dev/null,x");
    vm_compute; reflexivity.
Defined.

(** ** The remaining callbacks *)

(** Status changes, status-queue notifications and readiness callbacks,
    in any number and order, leave an attached device as attach built it:
    the ready flag stays false, descriptors the guest posted on the status
    queue are neither consumed nor acknowledged, the host keeps the events
    it has pending, and the staging buffer stays empty. *)
Theorem attached_device_never_changes (env : host_env)
    (opts : option string) (d : virtio_input) (cs : list device_call)
    (posted : list iovec) (host : host_device) (status : Z) :
  init_vdev (virtio_input_init env opts) = Some d ->
  let d' := run_calls cs d in
  d' = d /\
  ready d' = false /\
  event_qindex d' = 0 /\
  virtio_input_set_status d' status = d /\
  virtio_input_read_event host (fd d') d' = (host, d) /\
  (forall vq,
     vq_avail vq = posted ->
     let '(d2, vq2) := virtio_input_notify_status_vq d' vq in
     d2 = d /\ vq_avail vq2 = posted /\ vq_used vq2 = vq_used vq).
Proof.
  intros H d'. subst d'.
  destruct (init_vdev_fresh env opts d H) as (_ & Hidx & _ & Hready & _).
  rewrite run_calls_id.
  split; [reflexivity|]. split; [exact Hready|]. split; [exact Hidx|].
  split; [reflexivity|]. split; [reflexivity|].
  intros vq Hvq. simpl. split; [reflexivity|]. split; [exact Hvq|reflexivity].
Qed.

(** The attached sample device under a status change, two status-queue
    notifications and a readiness callback. *)
Lemma attached_device_never_changes_witness :
  let d := attached_device in
  let posted := [{| iov_base := 8192; iov_len := 8 |}] in
  let host := {| pending := key_then_syn |} in
  let d' := run_calls [CallSetStatus 15; CallNotifyStatusVq 1;
                       CallReadEvent host; CallNotifyStatusVq 1] d in
  d' = d /\
  ready d' = false /\
  event_qindex d' = 0 /\
  virtio_input_set_status d' 15 = d /\
  virtio_input_read_event host (fd d') d' = (host, d) /\
  (forall vq,
     vq_avail vq = posted ->
     let '(d2, vq2) := virtio_input_notify_status_vq d' vq in
     d2 = d /\ vq_avail vq2 = posted /\ vq_used vq2 = vq_used vq).
Proof.
  intros d posted host.
  apply (attached_device_never_changes env_ok
           (Some "/dev/input/event3,abc") d _ posted host 15).
  vm_compute. reflexivity.
Defined.

(** * Properties of the cpu.h helpers *)

(** ** Bit arithmetic shared by the macros *)

Lemma uint32_range (x : Z) : 0 <= uint32_t x < 2 ^ 32.
Proof. unfold uint32_t. apply Z.mod_pos_bound. reflexivity. Qed.

Lemma uint64_range (x : Z) : 0 <= uint64_t x < 2 ^ 64.
Proof. unfold uint64_t. apply Z.mod_pos_bound. reflexivity. Qed.

(** A high word shifted up and a low word below it do not overlap. *)
Lemma lor_high_low (h l : Z) :
  0 <= l < 2 ^ 32 -> Z.lor (Z.shiftl h 32) l = h * 2 ^ 32 + l.
Proof.
  intros Hl.
  rewrite <- (Z.shiftl_mul_pow2 h 32) by lia.
  rewrite <- Z.add_lor_land.
  assert (Hdisj : Z.land (Z.shiftl h 32) l = 0).
  { apply Z.bits_inj'. intros i Hi.
    rewrite Z.land_spec, Z.bits_0, Z.shiftl_spec by exact Hi.
    destruct (Z.ltb_spec i 32) as [Hlt|Hge].
    - rewrite Z.testbit_neg_r by lia. reflexivity.
    - rewrite <- (Z.mod_small l (2 ^ 32)) by exact Hl.
      rewrite Z.mod_pow2_bits_high by lia. apply andb_false_r. }
  rewrite Hdisj. lia.
Qed.

(** The two 32-bit halves a 64-bit value is split into recombine to it. *)
Lemma halves_recombine (v : Z) :
  uint32_t (Z.shiftr v 32) * 2 ^ 32 + uint32_t v = uint64_t v.
Proof.
  unfold uint32_t, uint64_t.
  rewrite Z.shiftr_div_pow2 by lia.
  change (2 ^ 64) with (2 ^ 32 * 2 ^ 32).
  rewrite Z.rem_mul_r by lia. ring.
Qed.

(** Masking a 64-bit value with all ones above bit [n] rounds it down to
    a multiple of 2^n. *)
Lemma mask_rounds_down (x n : Z) :
  0 <= x < 2 ^ 64 -> 0 <= n <= 64 ->
  Z.land x (2 ^ 64 - 2 ^ n) = x - x mod 2 ^ n.
Proof.
  intros Hx Hn.
  assert (Hmask : 2 ^ 64 - 2 ^ n = Z.shiftl (Z.ones (64 - n)) n).
  { rewrite Z.shiftl_mul_pow2, Z.ones_equiv by lia.
    replace (2 ^ 64) with (2 ^ (64 - n) * 2 ^ n)
      by (rewrite <- Z.pow_add_r by lia; f_equal; lia).
    lia. }
  assert (Hdown : x - x mod 2 ^ n = Z.shiftl (Z.shiftr x n) n).
  { rewrite Z.shiftl_mul_pow2, Z.shiftr_div_pow2 by lia.
    pose proof (Z.div_mod x (2 ^ n)) as Hdm.
    assert (2 ^ n <> 0) by (apply Z.pow_nonzero; lia). lia. }
  rewrite Hmask, Hdown.
  apply Z.bits_inj'. intros i Hi.
  rewrite Z.land_spec, !Z.shiftl_spec by exact Hi.
  destruct (Z.ltb_spec i n) as [Hlt|Hge].
  - rewrite (Z.testbit_neg_r (Z.ones (64 - n))),
      (Z.testbit_neg_r (Z.shiftr x n)) by lia.
    apply andb_false_r.
  - rewrite Z.shiftr_spec by lia.
    replace (i - n + n) with i by lia.
    rewrite Z.testbit_ones by lia.
    destruct (Z.ltb_spec i 64) as [Hlt|Hge64].
    + replace (0 <=? i - n) with true by (symmetry; apply Z.leb_le; lia).
      replace (i - n <? 64 - n) with true by (symmetry; apply Z.ltb_lt; lia).
      apply andb_true_r.
    + rewrite <- (Z.mod_small x (2 ^ 64)) by exact Hx.
      rewrite Z.mod_pow2_bits_high by lia. reflexivity.
Qed.

(** ** Model-specific registers *)

(** Reading a model-specific register after writing it returns the value
    written, taken as a 64-bit number; the write touches no other
    model-specific register, no extended control register and not the
    stack pointer. *)
Theorem msr_read_after_write (m : machine) (reg_num value64 : Z) :
  msr_read (msr_write m reg_num value64) reg_num = uint64_t value64 /\
  (forall other, other <> reg_num ->
     msr_read (msr_write m reg_num value64) other = msr_read m other) /\
  reg_xcr (msr_write m reg_num value64) = reg_xcr m /\
  cpu_rsp_get (msr_write m reg_num value64) = cpu_rsp_get m.
Proof.
  unfold msr_read, msr_write, CPU_MSR_READ, CPU_MSR_WRITE, rdmsr, wrmsr,
    cpu_rsp_get.
  cbn [reg_msr reg_xcr reg_rsp].
  repeat split.
  - rewrite Z.eqb_refl.
    pose proof (uint32_range value64) as Hlo.
    pose proof (uint32_range (Z.shiftr value64 32)) as Hhi.
    assert (Hh64 : uint64_t (uint32_t (Z.shiftr value64 32))
                   = uint32_t (Z.shiftr value64 32)).
    { unfold uint64_t at 1. apply Z.mod_small. lia. }
    assert (Hl64 : uint64_t (uint32_t value64) = uint32_t value64).
    { unfold uint64_t at 1. apply Z.mod_small. lia. }
    rewrite Hh64, Hl64.
    assert (Hs64 : uint64_t (Z.shiftl (uint32_t (Z.shiftr value64 32)) 32)
                   = Z.shiftl (uint32_t (Z.shiftr value64 32)) 32).
    { unfold uint64_t at 1. apply Z.mod_small.
      rewrite Z.shiftl_mul_pow2 by lia. lia. }
    rewrite Hs64, lor_high_low by exact Hlo.
    apply halves_recombine.
  - intros other Hother.
    destruct (Z.eqb_spec other reg_num) as [->|_]; [contradiction|].
    reflexivity.
Qed.

(** Writing back what was read from a model-specific register whose two
    halves are 32-bit values leaves the register as it was, and the value
    read is a 64-bit number. *)
Theorem msr_write_after_read (m : machine) (reg_num : Z) :
  0 <= fst (reg_msr m reg_num) < 2 ^ 32 ->
  0 <= snd (reg_msr m reg_num) < 2 ^ 32 ->
  0 <= msr_read m reg_num < 2 ^ 64 /\
  msr_read m reg_num
  = snd (reg_msr m reg_num) * 2 ^ 32 + fst (reg_msr m reg_num) /\
  reg_msr (msr_write m reg_num (msr_read m reg_num)) reg_num
  = reg_msr m reg_num.
Proof.
  unfold msr_read, msr_write, CPU_MSR_READ, CPU_MSR_WRITE, rdmsr, wrmsr.
  cbn [reg_msr].
  destruct (reg_msr m reg_num) as [lo hi]. cbn [fst snd].
  intros Hlo Hhi. rewrite Z.eqb_refl.
  assert (Hh64 : uint64_t hi = hi) by (apply Z.mod_small; lia).
  assert (Hl64 : uint64_t lo = lo) by (apply Z.mod_small; lia).
  rewrite Hh64, Hl64.
  assert (Hs64 : uint64_t (Z.shiftl hi 32) = Z.shiftl hi 32).
  { apply Z.mod_small. rewrite Z.shiftl_mul_pow2 by lia. lia. }
  rewrite Hs64, lor_high_low by exact Hlo.
  repeat split; try lia.
  f_equal.
  - unfold uint32_t.
    rewrite Z.add_comm, Z.mod_add by lia. apply Z.mod_small. exact Hlo.
  - unfold uint32_t. rewrite Z.shiftr_div_pow2 by lia.
    rewrite Z.div_add_l by lia.
    rewrite (Z.div_small lo) by exact Hlo.
    rewrite Z.add_0_r. apply Z.mod_small. exact Hhi.
Qed.

(** A register holding the halves 0x89abcdef (low) and 0x01234567. *)
Lemma msr_write_after_read_witness :
  let m := wrmsr machine_zero 0x10 0x89abcdef 0x01234567 in
  0 <= msr_read m 0x10 < 2 ^ 64 /\
  msr_read m 0x10 = snd (reg_msr m 0x10) * 2 ^ 32 + fst (reg_msr m 0x10) /\
  reg_msr (msr_write m 0x10 (msr_read m 0x10)) 0x10 = reg_msr m 0x10.
Proof.
  apply (msr_write_after_read (wrmsr machine_zero 0x10 0x89abcdef 0x01234567)
           0x10).
  - vm_compute. split; [discriminate | reflexivity].
  - vm_compute. split; [discriminate | reflexivity].
Defined.

(** write_xcr hands xsetbv the low and the high 32 bits of the value: both
    halves are 32-bit numbers and put together they are the value, taken as
    a 64-bit number.  No other extended control register, no
    model-specific register and not the stack pointer is touched. *)
Theorem write_xcr_halves (m : machine) (reg val : Z) :
  let m' := write_xcr m reg val in
  0 <= fst (reg_xcr m' reg) < 2 ^ 32 /\
  0 <= snd (reg_xcr m' reg) < 2 ^ 32 /\
  snd (reg_xcr m' reg) * 2 ^ 32 + fst (reg_xcr m' reg) = uint64_t val /\
  (forall other, other <> reg -> reg_xcr m' other = reg_xcr m other) /\
  reg_msr m' = reg_msr m /\
  cpu_rsp_get m' = cpu_rsp_get m.
Proof.
  unfold write_xcr, xsetbv, cpu_rsp_get. cbn [reg_xcr reg_msr reg_rsp].
  rewrite Z.eqb_refl. cbn [fst snd].
  repeat split; try apply uint32_range.
  - apply halves_recombine.
  - intros other Hother.
    destruct (Z.eqb_spec other reg) as [->|_]; [contradiction|].
    reflexivity.
Qed.

(** ** Stack pointer and page constants *)

(** CPU_SP_WRITE loads the stack pointer with the given address rounded
    down to a multiple of CPU_STACK_ALIGN: the new value is aligned, not
    above the address and less than CPU_STACK_ALIGN below it; an aligned
    address is loaded as it is.  The other registers are untouched. *)
Theorem sp_write_aligns (m : machine) (stack_ptr : Z) :
  let sp := uint64_t stack_ptr in
  let rsp := cpu_rsp_get (CPU_SP_WRITE m stack_ptr) in
  rsp mod CPU_STACK_ALIGN = 0 /\
  rsp <= sp < rsp + CPU_STACK_ALIGN /\
  (sp mod CPU_STACK_ALIGN = 0 -> rsp = sp) /\
  cpu_rsp_get (CPU_SP_WRITE (CPU_SP_WRITE m stack_ptr) rsp) = rsp /\
  reg_msr (CPU_SP_WRITE m stack_ptr) = reg_msr m /\
  reg_xcr (CPU_SP_WRITE m stack_ptr) = reg_xcr m.
Proof.
  intros sp rsp.
  assert (Hsp : 0 <= sp < 2 ^ 64) by apply uint64_range.
  assert (Hmask : uint64_t (Z.lnot (CPU_STACK_ALIGN - 1)) = 2 ^ 64 - 2 ^ 4)
    by reflexivity.
  assert (Hrsp : rsp = sp - sp mod 2 ^ 4).
  { unfold rsp, cpu_rsp_get, CPU_SP_WRITE. cbn [reg_rsp].
    rewrite Hmask. apply mask_rounds_down; [exact Hsp | lia]. }
  change CPU_STACK_ALIGN with (2 ^ 4).
  pose proof (Z.mod_pos_bound sp (2 ^ 4) ltac:(lia)) as Hm.
  pose proof (Z.div_mod sp (2 ^ 4) ltac:(lia)) as Hdm.
  assert (Hal : rsp mod 2 ^ 4 = 0).
  { rewrite Hrsp.
    replace (sp - sp mod 2 ^ 4) with (sp / 2 ^ 4 * 2 ^ 4) by lia.
    apply Z.mod_mul. lia. }
  repeat split; try lia.
  unfold cpu_rsp_get at 1, CPU_SP_WRITE at 1. cbn [reg_rsp].
  rewrite Hmask.
  assert (Hr64 : uint64_t rsp = rsp) by (apply Z.mod_small; lia).
  rewrite Hr64, mask_rounds_down by lia. lia.
Qed.

(** For every 64-bit address, masking with CPU_PAGE_MASK gives the start
    of its page: the address minus its offset within a page of
    CPU_PAGE_SIZE = 2^CPU_PAGE_SHIFT bytes; the result is page aligned and
    the address lies less than a page above it. *)
Theorem page_mask_page_base (addr : Z) :
  let a := uint64_t addr in
  let base := Z.land a CPU_PAGE_MASK in
  CPU_PAGE_SIZE = 2 ^ CPU_PAGE_SHIFT /\
  base = a - a mod CPU_PAGE_SIZE /\
  base = Z.shiftl (Z.shiftr a CPU_PAGE_SHIFT) CPU_PAGE_SHIFT /\
  base mod CPU_PAGE_SIZE = 0 /\
  base <= a < base + CPU_PAGE_SIZE.
Proof.
  intros a base.
  assert (Ha : 0 <= a < 2 ^ 64) by apply uint64_range.
  assert (Hbase : base = a - a mod 2 ^ 12).
  { unfold base. change CPU_PAGE_MASK with (2 ^ 64 - 2 ^ 12).
    apply mask_rounds_down; [exact Ha | lia]. }
  change CPU_PAGE_SIZE with (2 ^ 12). change CPU_PAGE_SHIFT with 12.
  pose proof (Z.mod_pos_bound a (2 ^ 12) ltac:(lia)) as Hm.
  pose proof (Z.div_mod a (2 ^ 12) ltac:(lia)) as Hdm.
  repeat split; try lia.
  - rewrite Z.shiftl_mul_pow2, Z.shiftr_div_pow2 by lia. lia.
  - rewrite Hbase.
    replace (a - a mod 2 ^ 12) with (a / 2 ^ 12 * 2 ^ 12) by lia.
    apply Z.mod_mul. lia.
Qed.

(** ** Per-CPU data offsets *)

(** For a symbol inside the per-CPU data section, PER_CPU_DATA_OFFSET is
    its distance from the start of the section, is smaller than
    PER_CPU_DATA_SIZE, and added to the start gives the symbol back. *)
Theorem per_cpu_offset_in_section (ld_start ld_end sym_addr : Z) :
  0 <= ld_start ->
  ld_start <= sym_addr < ld_end ->
  ld_end < 2 ^ 64 ->
  PER_CPU_DATA_OFFSET ld_start sym_addr = sym_addr - ld_start /\
  PER_CPU_DATA_OFFSET ld_start sym_addr < PER_CPU_DATA_SIZE ld_start ld_end /\
  PER_CPU_DATA_OFFSET ld_start ld_start = 0 /\
  uint64_t (ld_start + PER_CPU_DATA_OFFSET ld_start sym_addr) = sym_addr.
Proof.
  intros Hs Hsym He.
  unfold PER_CPU_DATA_OFFSET, PER_CPU_DATA_SIZE, uint64_t.
  rewrite (Z.mod_small sym_addr), (Z.mod_small ld_start),
    (Z.mod_small ld_end) by lia.
  rewrite (Z.mod_small (sym_addr - ld_start)),
    (Z.mod_small (ld_end - ld_start)) by lia.
  rewrite Z.sub_diag, Z.mod_0_l by lia.
  repeat split; try lia.
  replace (ld_start + (sym_addr - ld_start)) with sym_addr by lia.
  apply Z.mod_small. lia.
Qed.

(** A section of 0x400 bytes at 0x200000 and a symbol at offset 0x40. *)
Lemma per_cpu_offset_in_section_witness :
  PER_CPU_DATA_OFFSET 0x200000 0x200040 = 0x200040 - 0x200000 /\
  PER_CPU_DATA_OFFSET 0x200000 0x200040
  < PER_CPU_DATA_SIZE 0x200000 0x200400 /\
  PER_CPU_DATA_OFFSET 0x200000 0x200000 = 0 /\
  uint64_t (0x200000 + PER_CPU_DATA_OFFSET 0x200000 0x200040) = 0x200040.
Proof.
  apply (per_cpu_offset_in_section 0x200000 0x200400 0x200040); lia.
Defined.
